(** * ocr_pdf_to_txt: a shallow embedding of [app.py]

    The Flask view [process] and its helpers are embedded as Rocq
    functions over an explicit world (the two storage directories and a
    log of the calls made to the OCR and PDF collaborators).

    Conventions.
    - A Python [str] is the list of its Unicode code points ([N]); [len]
      is [length], slicing is [take]/[drop].
    - A file's content is a list of bytes (numbers below 256).
    - The platform is POSIX, as the deployment described in [wsgi.py]:
      [os.sep] is [/], [os.linesep] is a single line feed and a file
      name of more than 255 bytes cannot be opened.
    - External libraries (pdfplumber, pdf2image, PIL, pytesseract,
      python-docx, pandas, the Unicode tables) are parameters of the
      development; a statement holds for all their behaviours unless it
      names the behaviour it takes as a hypothesis. *)

From Stdlib Require Import NArith String Ascii Lia.
From stdpp Require Import base option list gmap.

Abbreviation pystr := (list N).
Abbreviation bytes := (list N).

(** A Python string literal, written as a Rocq string of ASCII characters. *)
Definition py (s : string) : pystr :=
  N_of_ascii <$> list_ascii_of_string s.

(** ** Built-in string methods *)
Module Str.
Local Open Scope N_scope.

Definition LF : N := 10.
Definition CR : N := 13.
Definition DOT : N := 46.
Definition SLASH : N := 47.

(** [str.isspace] on one code point: the table of CPython's
    [_PyUnicode_IsWhitespace]. *)
Definition isspace (c : N) : bool :=
  (0x09 <=? c) && (c <=? 0x0D) || (0x1C <=? c) && (c <=? 0x1F)
  || (c =? 0x20) || (c =? 0x85) || (c =? 0xA0) || (c =? 0x1680)
  || (0x2000 <=? c) && (c <=? 0x200A)
  || (c =? 0x2028) || (c =? 0x2029) || (c =? 0x202F) || (c =? 0x205F)
  || (c =? 0x3000).

(** [s.lstrip(chars)], [s.rstrip(chars)], [s.strip(chars)], the character
    set given as a predicate. *)
Fixpoint lstrip_by (p : N → bool) (s : pystr) : pystr :=
  match s with
  | [] => []
  | c :: r => if p c then lstrip_by p r else s
  end.

Definition rstrip_by (p : N → bool) (s : pystr) : pystr :=
  reverse (lstrip_by p (reverse s)).

Definition strip_by (p : N → bool) (s : pystr) : pystr :=
  rstrip_by p (lstrip_by p s).

(** [s.strip()] *)
Definition strip (s : pystr) : pystr := strip_by isspace s.

(** Truth value of a string: non-empty. *)
Definition truthy (s : pystr) : bool :=
  match s with [] => false | _ :: _ => true end.

(** [s.split(sep)] for a one-character separator. *)
Fixpoint split (sep : N) (s : pystr) : list pystr :=
  match s with
  | [] => [[]]
  | c :: r =>
      if c =? sep then [] :: split sep r
      else match split sep r with
           | [] => [[c]]
           | l :: ls => (c :: l) :: ls
           end
  end.

(** [s.split()]: the maximal runs of non-whitespace characters. *)
Fixpoint split_ws_aux (cur : pystr) (s : pystr) : list pystr :=
  match s with
  | [] => match cur with [] => [] | _ => [reverse cur] end
  | c :: r =>
      if isspace c
      then match cur with
           | [] => split_ws_aux [] r
           | _ => reverse cur :: split_ws_aux [] r
           end
      else split_ws_aux (c :: cur) r
  end.

Definition split_ws (s : pystr) : list pystr := split_ws_aux [] s.

(** [sep.join(parts)] *)
Fixpoint join (sep : pystr) (parts : list pystr) : pystr :=
  match parts with
  | [] => []
  | [p] => p
  | p :: ps => p ++ sep ++ join sep ps
  end.

(** [s.rfind(sep)]: index of the last occurrence. *)
Fixpoint rfind (sep : N) (s : pystr) : option nat :=
  match s with
  | [] => None
  | c :: r =>
      match rfind sep r with
      | Some i => Some (S i)
      | None => if c =? sep then Some 0%nat else None
      end
  end.

(** [s.rsplit(sep, 1)]: at most one split, made at the last separator. *)
Definition rsplit1 (sep : N) (s : pystr) : list pystr :=
  match rfind sep s with
  | None => [s]
  | Some i => [take i s; drop (S i) s]
  end.

(** [s.replace(old, new)] for one-character [old] and [new]. *)
Definition replace1 (old new : N) (s : pystr) : pystr :=
  (λ c, if c =? old then new else c) <$> s.

(** [s.startswith(c)] for a one-character prefix. *)
Definition startswith1 (c : N) (s : pystr) : bool :=
  match s with
  | [] => false
  | d :: _ => d =? c
  end.

Definition endswith1 (c : N) (s : pystr) : bool :=
  startswith1 c (reverse s).

Section Lower.
(** Lower-casing of a code point outside ASCII, from the Unicode
    character database. *)
Variable unicode_lower : N → pystr.

Definition lower_cp (c : N) : pystr :=
  if c <? 0x80
  then (if (0x41 <=? c) && (c <=? 0x5A) then [c + 0x20] else [c])
  else unicode_lower c.

(** [s.lower()] *)
Definition lower (s : pystr) : pystr := s ≫= lower_cp.
End Lower.

End Str.

(** ** [allowed_file] *)

Definition ALLOWED_EXTENSIONS : gset pystr :=
  {[ py "pdf"; py "png"; py "jpg"; py "jpeg"; py "docx"; py "txt" ]}.

Section FormatGate.
Variable unicode_lower : N → pystr.

(** [allowed_file(filename)], line 24.  The right operand of [and] is
    evaluated only when the filename holds a dot, so the index [1]
    exists. *)
Definition allowed_file (filename : pystr) : bool :=
  bool_decide (Str.DOT ∈ filename)
  && match Str.rsplit1 Str.DOT filename !! 1%nat with
     | Some ext => bool_decide (Str.lower unicode_lower ext ∈ ALLOWED_EXTENSIONS)
     | None => false
     end.
End FormatGate.

(** ** The UTF-8 codec and text-mode files *)
Module Utf8.
Local Open Scope N_scope.

(** A continuation byte, [10xxxxxx]. *)
Definition cont (b : N) : bool := (0x80 <=? b) && (b <=? 0xBF).

Definition surrogate (c : N) : bool := (0xD800 <=? c) && (c <? 0xE000).

(** Code points that [str.encode('utf-8')] accepts: the Unicode scalar
    values. *)
Definition scalar (c : N) : bool := (c <? 0x110000) && negb (surrogate c).

Definition encode_cp (c : N) : option bytes :=
  if c <? 0x80 then Some [c]
  else if c <? 0x800 then Some [0xC0 + c / 64; 0x80 + c mod 64]
  else if c <? 0x10000 then
    if surrogate c then None
    else Some [0xE0 + c / 4096; 0x80 + (c / 64) mod 64; 0x80 + c mod 64]
  else if c <? 0x110000 then
    Some [0xF0 + c / 262144; 0x80 + (c / 4096) mod 64;
          0x80 + (c / 64) mod 64; 0x80 + c mod 64]
  else None.

(** [s.encode('utf-8')]; [None] stands for [UnicodeEncodeError]. *)
Fixpoint encode (s : pystr) : option bytes :=
  match s with
  | [] => Some []
  | c :: r =>
      match encode_cp c, encode r with
      | Some b, Some bs => Some (b ++ bs)
      | _, _ => None
      end
  end.

(** [b.decode('utf-8')] with strict error handling; [None] stands for
    [UnicodeDecodeError].  Overlong forms, surrogates and values above
    U+10FFFF are rejected. *)
Fixpoint decode (bs : bytes) : option pystr :=
  match bs with
  | [] => Some []
  | b0 :: r0 =>
      if b0 <? 0x80 then cons b0 <$> decode r0
      else if b0 <? 0xC0 then None
      else if b0 <? 0xE0 then
        match r0 with
        | b1 :: r1 =>
            let v := (b0 - 0xC0) * 64 + (b1 - 0x80) in
            if cont b1 && (0x80 <=? v) then cons v <$> decode r1 else None
        | _ => None
        end
      else if b0 <? 0xF0 then
        match r0 with
        | b1 :: b2 :: r2 =>
            let v := (b0 - 0xE0) * 4096 + (b1 - 0x80) * 64 + (b2 - 0x80) in
            if cont b1 && cont b2 && (0x800 <=? v) && negb (surrogate v)
            then cons v <$> decode r2 else None
        | _ => None
        end
      else if b0 <? 0xF8 then
        match r0 with
        | b1 :: b2 :: b3 :: r3 =>
            let v := (b0 - 0xF0) * 262144 + (b1 - 0x80) * 4096
                     + (b2 - 0x80) * 64 + (b3 - 0x80) in
            if cont b1 && cont b2 && cont b3
               && (0x10000 <=? v) && (v <? 0x110000)
            then cons v <$> decode r3 else None
        | _ => None
        end
      else None
  end.

(** Universal-newline translation of a text file opened for reading with
    [newline=None]: CR LF and a lone CR become LF. *)
Fixpoint universal_newlines (s : pystr) : pystr :=
  match s with
  | [] => []
  | c :: r =>
      if c =? Str.CR
      then Str.LF :: match r with
                     | d :: r' => if d =? Str.LF then universal_newlines r'
                                  else universal_newlines r
                     | [] => []
                     end
      else c :: universal_newlines r
  end.

(** [os.linesep] *)
Definition os_linesep : pystr := [Str.LF].

(** Translation applied by a text file opened for writing with
    [newline=None]: every LF becomes [os.linesep]. *)
Definition write_newlines (s : pystr) : pystr :=
  s ≫= (λ c, if c =? Str.LF then os_linesep else [c]).

End Utf8.

(** ** Exceptions, the world and the monad of effects *)

Inductive exn :=
| IndexError                   (* list index out of range *)
| UnicodeDecodeError
| UnicodeEncodeError
| IsADirectoryError
| FileNotFoundError
| OSError                      (* [Errno 36] File name too long *)
| LibraryError (msg : pystr).  (* raised inside an external library *)

Inductive result (A : Type) :=
| Ok (a : A)
| Raise (e : exn).
Arguments Ok {A} a.
Arguments Raise {A} e.

(** Calls made to the PDF and OCR collaborators, in the order made. *)
Inductive call :=
| CallExtractText (page_number : nat)
| CallConvertFromPath (first_page last_page : nat)
| CallImageToString (lang : pystr).

(** The file system (regular files by path) and the log of calls. *)
Record world := World {
  files : gmap pystr bytes;
  calls : list call
}.

(** A computation may change the world and may raise; what it did to the
    world before raising stays done. *)
Definition M (A : Type) : Type := world → result A * world.

#[global] Instance M_ret : MRet M := λ A a w, (Ok a, w).
#[global] Instance M_bind : MBind M := λ A B f m w,
  match m w with
  | (Ok a, w') => f a w'
  | (Raise e, w') => (Raise e, w')
  end.

Definition lift {A} (r : result A) : M A := λ w, (r, w).
Definition raise {A} (e : exn) : M A := lift (Raise e).
Definition log (c : call) : M unit :=
  λ w, (Ok tt, World (files w) (calls w ++ [c])).

(** [l[i]] *)
Definition getitem {A} (l : list A) (i : nat) : result A :=
  match l !! i with
  | Some x => Ok x
  | None => Raise IndexError
  end.

(** *** Paths and files *)

(** [os.path.join(a, b)] of [posixpath]. *)
Definition os_path_join (a b : pystr) : pystr :=
  if Str.startswith1 Str.SLASH b then b
  else if negb (Str.truthy a) || Str.endswith1 Str.SLASH a then a ++ b
  else a ++ [Str.SLASH] ++ b.

(** The longest file name, in bytes, that the file system takes
    ([NAME_MAX] of Linux). *)
Definition NAME_MAX : nat := 255.

(** The bytes of a name: the lengths of the UTF-8 forms of its
    characters. *)
Definition name_bytes (name : pystr) : nat :=
  sum_list ((λ c, if (c <? 0x80)%N then 1
                  else if (c <? 0x800)%N then 2
                  else if (c <? 0x10000)%N then 3 else 4) <$> name).

(** A path one of whose components is longer than [NAME_MAX]: opening it
    fails with [ENAMETOOLONG]. *)
Definition name_too_long (path : pystr) : bool :=
  existsb (λ name, bool_decide (NAME_MAX < name_bytes name))
          (Str.split Str.SLASH path).

(** [open(path, 'wb')] followed by writing [data]: creates or replaces the
    file.  A name that is too long is refused, and a path with a trailing
    slash cannot name a regular file. *)
Definition write_binary (path : pystr) (data : bytes) : M unit :=
  if name_too_long path then raise OSError
  else if Str.endswith1 Str.SLASH path then raise IsADirectoryError
  else λ w, (Ok tt, World (<[path := data]> (files w)) (calls w)).

Definition read_binary (path : pystr) : M bytes :=
  λ w, match files w !! path with
       | Some data => (Ok data, w)
       | None => (Raise FileNotFoundError, w)
       end.

(** [with open(path, 'w', encoding='utf-8') as f: f.write(text)].  When
    [open] fails nothing is created; otherwise the file is created (or
    truncated) by [open], and a text that cannot be encoded leaves it
    empty. *)
Definition write_text (path : pystr) (text : pystr) : M unit :=
  if name_too_long path then raise OSError
  else if Str.endswith1 Str.SLASH path then raise IsADirectoryError
  else λ w,
    match Utf8.encode (Utf8.write_newlines text) with
    | Some data => (Ok tt, World (<[path := data]> (files w)) (calls w))
    | None => (Raise UnicodeEncodeError,
               World (<[path := []]> (files w)) (calls w))
    end.

(** [with open(path, 'r', encoding='utf-8') as f: f.read()] *)
Definition read_text (path : pystr) : M pystr :=
  data ← read_binary path;
  match Utf8.decode data with
  | Some s => mret (Utf8.universal_newlines s)
  | None => raise UnicodeDecodeError
  end.

(** [os.path.exists(path)] and [os.remove(path)] on regular files. *)
Definition os_path_exists (path : pystr) (w : world) : bool :=
  bool_decide (is_Some (files w !! path)).

Definition os_remove (path : pystr) (w : world) : world :=
  World (delete path (files w)) (calls w).

(** *** [datetime] *)

Record datetime := DateTime {
  year : N; month : N; day : N;
  hour : N; minute : N; second : N
}.

Section Strftime.
Local Open Scope N_scope.

Definition digit (n : N) : N := 48 + n.

Definition pad2 (n : N) : pystr := [digit (n / 10); digit (n mod 10)].

Definition pad4 (n : N) : pystr :=
  [digit (n / 1000); digit ((n / 100) mod 10);
   digit ((n / 10) mod 10); digit (n mod 10)].

(** [d.strftime("%Y%m%d_%H%M%S")] *)
Definition strftime (d : datetime) : pystr :=
  pad4 (year d) ++ pad2 (month d) ++ pad2 (day d) ++ py "_"
  ++ pad2 (hour d) ++ pad2 (minute d) ++ pad2 (second d).

End Strftime.

(** *** [pandas.DataFrame] *)

Record DataFrame := {
  df_columns : list pystr;
  df_rows : list (list pystr)
}.

(** [pd.DataFrame(data, columns=columns)] for a list of scalars: one row
    of one cell per element. *)
Definition DataFrame_of_list (data : list pystr) (columns : list pystr)
  : DataFrame :=
  {| df_columns := columns; df_rows := (λ x, [x]) <$> data |}.

(** ** External collaborators *)

Class Libraries := {
  (** [str.lower] outside ASCII *)
  unicode_lower : N → pystr;
  (** [unicodedata.normalize("NFKD", s)] *)
  unicode_nfkd : pystr → pystr;
  (** PIL images *)
  image : Type;
  Image_open : bytes → result image;
  Image_convert_L : image → image;
  Image_filter_SHARPEN : image → image;
  (** [pytesseract.image_to_string(image, lang=lang, config=config)] *)
  image_to_string : image → pystr → pystr → result pystr;
  (** pdfplumber: for each page in document order, what [extract_text]
      does on it *)
  pdf_text_layers : bytes → result (list (result (option pystr)));
  (** pdf2image: the rendering of one page *)
  pdf_render_page : bytes → nat → result image;
  (** python-docx: the paragraph texts of a document, and the container
      of a new document holding one paragraph *)
  docx_paragraphs : bytes → result (list pystr);
  docx_single_paragraph : pystr → result bytes;
  (** [DataFrame.to_csv(path, index=False, encoding='utf-8-sig')] *)
  dataframe_to_csv : DataFrame → result bytes
}.

(** ** The application *)

Definition UPLOAD_FOLDER : pystr := py "uploads".
Definition OUTPUT_FOLDER : pystr := py "outputs".

(** An uploaded file of the multipart form. *)
Record FileStorage := {
  fs_filename : pystr;
  fs_stream : bytes
}.

(** The parts of a POST to [/process] that the view reads. *)
Record request := {
  request_file : option FileStorage;
  form_format : option pystr;
  form_lang : option pystr
}.

Inductive response :=
| Json200 (preview download_url filename : pystr)  (* success: True *)
| Json400 (error : pystr)
| Json500 (e : exn)            (* the body holds [str(e)] *)
| Unhandled (e : exn).         (* an exception that leaves the view *)

Record page := {
  page_number : nat;
  page_layer : result (option pystr)
}.

Section App.
Context {L : Libraries}.

(** *** [werkzeug.utils.secure_filename], POSIX *)

(** A character kept by the pattern [[^A-Za-z0-9_.-]]. *)
Definition filename_char (c : N) : bool :=
  ((0x41 <=? c) && (c <=? 0x5A) || (0x61 <=? c) && (c <=? 0x7A)
   || (0x30 <=? c) && (c <=? 0x39)
   || (c =? 0x5F) || (c =? 0x2E) || (c =? 0x2D))%N.

Definition secure_filename (filename : pystr) : pystr :=
  let filename := unicode_nfkd filename in
  let filename := List.filter (λ c, c <? 0x80)%N filename in
  let filename := Str.replace1 Str.SLASH 0x20%N filename in
  Str.strip_by (λ c, (c =? 0x2E) || (c =? 0x5F))%N
    (List.filter filename_char
       (Str.join (py "_") (Str.split_ws filename))).

(** *** Lines 26–40 *)

Definition preprocess_image (img : image) : image :=
  Image_filter_SHARPEN (Image_convert_L img).

Definition extract_ocr (img : image) (lang : pystr) : M pystr :=
  _ ← log (CallImageToString lang);
  lift (image_to_string img lang (py "--oem 3 --psm 3")).

(** *** pdfplumber and pdf2image *)

(** [pdfplumber.open(path).pages]: numbered from 1 in document order. *)
Definition pdfplumber_pages (path : pystr) : M (list page) :=
  data ← read_binary path;
  layers ← lift (pdf_text_layers data);
  mret (imap (λ i l, {| page_number := S i; page_layer := l |}) layers).

Definition extract_text (p : page) : M (option pystr) :=
  _ ← log (CallExtractText (page_number p));
  lift (page_layer p).

(** [convert_from_path(path, first_page=a, last_page=b)]: one image for
    each page from [a] to [b]. *)
Definition convert_from_path (path : pystr) (first_page last_page : nat)
  : M (list image) :=
  _ ← log (CallConvertFromPath first_page last_page);
  data ← read_binary path;
  mapM (λ n, lift (pdf_render_page data n))
       (seq first_page (S last_page - first_page)).

(** *** [process_pdf], lines 42–56 *)

(** The inner loop, lines 53–55. *)
Fixpoint ocr_images (lang : pystr) (images : list image) (text : pystr)
  : M pystr :=
  match images with
  | [] => mret text
  | img :: rest =>
      let processed_img := preprocess_image img in
      o ← extract_ocr processed_img lang;
      ocr_images lang rest (text ++ o ++ [Str.LF])
  end.

(** The test of line 47: [content and len(content.strip()) > 20]. *)
Definition has_text (content : option pystr) : bool :=
  match content with
  | Some c => Str.truthy c && bool_decide (20 < length (Str.strip c))
  | None => false
  end.

(** The outer loop, lines 45–55. *)
Fixpoint pdf_pages_loop (path lang : pystr) (pages : list page)
  (text : pystr) : M pystr :=
  match pages with
  | [] => mret text
  | p :: rest =>
      content ← extract_text p;
      text ←
        (if has_text content
         then mret (text ++ default [] content ++ [Str.LF])
         else
           images ← convert_from_path path (page_number p) (page_number p);
           ocr_images lang images text);
      pdf_pages_loop path lang rest text
  end.

Definition process_pdf (path lang : pystr) : M pystr :=
  pages ← pdfplumber_pages path;
  pdf_pages_loop path lang pages [].

(** *** The view [process], lines 63–127 *)

(** Lines 79–92: the choice of the extractor. *)
Definition dispatch (filename input_path lang_choice : pystr) : M pystr :=
  ext ← lift (getitem (Str.rsplit1 Str.DOT filename) 1);
  let ext := Str.lower unicode_lower ext in
  if bool_decide (ext = py "pdf") then process_pdf input_path lang_choice
  else if bool_decide (ext ∈ [py "jpg"; py "jpeg"; py "png"]) then
    data ← read_binary input_path;
    img ← lift (Image_open data);
    extract_ocr (preprocess_image img) lang_choice
  else if bool_decide (ext = py "docx") then
    data ← read_binary input_path;
    paragraphs ← lift (docx_paragraphs data);
    mret (Str.join [Str.LF] paragraphs)
  else read_text input_path.

(** Line 112 *)
Definition csv_lines (extracted_text : pystr) : list pystr :=
  List.filter (λ l, Str.truthy (Str.strip l))
              (Str.split Str.LF extracted_text).

(** Lines 103–113: the artifact of each target format. *)
Definition save_artifact (out_path target_format extracted_text : pystr)
  : M unit :=
  if bool_decide (target_format = py "txt") then
    write_text out_path extracted_text
  else if bool_decide (target_format = py "md") then
    write_text out_path (py "# OCR Result" ++ [Str.LF; Str.LF]
                         ++ extracted_text)
  else if bool_decide (target_format = py "docx") then
    data ← lift (docx_single_paragraph extracted_text);
    write_binary out_path data
  else if bool_decide (target_format = py "csv") then
    let lines := csv_lines extracted_text in
    data ← lift (dataframe_to_csv (DataFrame_of_list lines [py "Content"]));
    write_binary out_path data
  else mret tt.

(** Line 100 *)
Definition out_filename_of (base_name timestamp target_format : pystr)
  : pystr :=
  base_name ++ py "_" ++ timestamp ++ py "." ++ target_format.

(** Lines 79–120: the body of [try]. [now] is what [datetime.now()]
    returns at line 99. *)
Definition try_body (now : datetime)
  (filename input_path target_format lang_choice : pystr) : M response :=
  extracted_text ← dispatch filename input_path lang_choice;
  if negb (Str.truthy (Str.strip extracted_text)) then
    mret (Json400
            (py "Could not detect any text. Ensure the image is clear."))
  else
    base_name ← lift (getitem (Str.rsplit1 Str.DOT filename) 0);
    let timestamp := strftime now in
    let out_filename := out_filename_of base_name timestamp target_format in
    let out_path := os_path_join OUTPUT_FOLDER out_filename in
    _ ← save_artifact out_path target_format extracted_text;
    mret (Json200 (take 1500 extracted_text)
                  (py "/download/" ++ out_filename)
                  out_filename).

(** Lines 125–127 *)
Definition finally_cleanup (input_path : pystr) (w : world) : world :=
  if os_path_exists input_path w then os_remove input_path w else w.

Definition process (now : datetime) (req : request) (w : world)
  : response * world :=
  match request_file req with
  | None => (Json400 (py "No file part"), w)
  | Some file =>
      let target_format := default (py "txt") (form_format req) in
      let lang_choice := default (py "eng+hin") (form_lang req) in
      if negb (Str.truthy (fs_filename file)) then
        (Json400 (py "No selected file"), w)
      else
        let filename := secure_filename (fs_filename file) in
        let input_path := os_path_join UPLOAD_FOLDER filename in
        match write_binary input_path (fs_stream file) w with
        | (Raise e, w1) => (Unhandled e, w1)
        | (Ok _, w1) =>
            let '(r, w2) :=
              try_body now filename input_path target_format lang_choice w1
            in
            (match r with Ok resp => resp | Raise e => Json500 e end,
             finally_cleanup input_path w2)
        end
  end.

End App.

(** * Vocabulary of the properties *)

(** [e] is [a] written in some letter case: each lower-case letter of [a]
    may appear in [e] as its capital. *)
Definition case_variant (e a : pystr) : Prop :=
  Forall2 (λ c d, c = d ∨ (0x61 ≤ d ≤ 0x7A ∧ c + 0x20 = d)%N) e a.

(** A computation that leaves every file as it was. *)
Definition keeps_files {A} (m : M A) : Prop :=
  ∀ w, files (m w).2 = files w.

(** A response produced by the view itself, on one of its three exits. *)
Definition view_response (resp : response) : Prop :=
  match resp with
  | Json200 _ _ _ | Json400 _ | Json500 _ => True
  | Unhandled _ => False
  end.

(** A text that is empty or holds only whitespace. *)
Definition blank (s : pystr) : Prop := Forall (λ c, Str.isspace c = true) s.

Definition NO_TEXT : pystr :=
  py "Could not detect any text. Ensure the image is clear.".

Definition recognized_format (fmt : pystr) : Prop :=
  fmt ∈ [py "txt"; py "md"; py "docx"; py "csv"].

(** The extensions that have an extractor of their own, lines 82–87. *)
Definition EXTRACTOR_EXTENSIONS : list pystr :=
  [py "pdf"; py "jpg"; py "jpeg"; py "png"; py "docx"].

Definition OCR_CONFIG : pystr := py "--oem 3 --psm 3".

(** The embedded text that makes a page digitally authored: it is there
    and, trimmed, it is longer than 20 characters. *)
Definition digitally_authored (content : option pystr) : Prop :=
  ∃ c, content = Some c ∧ 20 < length (Str.strip c).

(** The pages of a document with the given text layers. *)
Definition numbered (layers : list (result (option pystr))) : list page :=
  imap (λ i l, {| page_number := S i; page_layer := l |}) layers.

(** The number of lines of a text, lines being separated by line feeds,
    that hold a character other than whitespace; counted in one pass over
    the text, [seen] telling whether the current line has shown such a
    character. *)
Fixpoint count_lines_from (seen : bool) (s : pystr) : nat :=
  match s with
  | [] => if seen then 1 else 0
  | c :: r =>
      if (c =? Str.LF)%N
      then (if seen then 1 else 0) + count_lines_from false r
      else count_lines_from (seen || negb (Str.isspace c)) r
  end.

Definition count_nonblank_lines (s : pystr) : nat := count_lines_from false s.

(** A line kept by line 112. *)
Definition nonblank (l : pystr) : bool := Str.truthy (Str.strip l).

(** The frame written for the target format csv, line 113. *)
Definition csv_frame (text : pystr) : DataFrame :=
  DataFrame_of_list (csv_lines text) [py "Content"].

Section Vocabulary.
Context {L : Libraries}.

(** The values bound at lines 68–75. *)
Definition target_format_of (req : request) : pystr :=
  default (py "txt") (form_format req).

Definition lang_choice_of (req : request) : pystr :=
  default (py "eng+hin") (form_lang req).

Definition staged_name (file : FileStorage) : pystr :=
  secure_filename (fs_filename file).

Definition staging_path (file : FileStorage) : pystr :=
  os_path_join UPLOAD_FOLDER (staged_name file).

(** The response built from the outcome of the [try] block. *)
Definition response_of (r : result response) : response :=
  match r with
  | Ok resp => resp
  | Raise e => Json500 e
  end.

(** [filename.rsplit('.', 1)[0]] *)
Definition base_name_of (filename : pystr) : pystr :=
  match Str.rfind Str.DOT filename with
  | Some i => take i filename
  | None => filename
  end.

(** Name and path of the artifact of a request, lines 98–101. *)
Definition artifact_name (now : datetime) (req : request)
  (file : FileStorage) : pystr :=
  out_filename_of (base_name_of (staged_name file)) (strftime now)
                  (target_format_of req).

Definition artifact_path (now : datetime) (req : request)
  (file : FileStorage) : pystr :=
  os_path_join OUTPUT_FOLDER (artifact_name now req file).

(** What one page adds to the text and to the log of calls when its
    collaborators do not raise: its embedded text and no rendering, or
    the text read by OCR on the rendering of that page alone. *)
Inductive page_outcome (data : bytes) (lang : pystr) (p : page)
  : pystr → list call → Prop :=
| outcome_embedded c :
    page_layer p = Ok (Some c) →
    20 < length (Str.strip c) →
    page_outcome data lang p (c ++ [Str.LF])
      [CallExtractText (page_number p)]
| outcome_ocr content img o :
    page_layer p = Ok content →
    ¬ digitally_authored content →
    pdf_render_page data (page_number p) = Ok img →
    image_to_string (preprocess_image img) lang OCR_CONFIG = Ok o →
    page_outcome data lang p (o ++ [Str.LF])
      [CallExtractText (page_number p);
       CallConvertFromPath (page_number p) (page_number p);
       CallImageToString lang].

End Vocabulary.


(** ** A small concrete world

    Collaborators simple enough to run the view on examples: an image is
    the text written on it; a PDF is a sequence of pages separated by form
    feeds, a page that starts with [!] being a scan of the rest of it. *)

Module Toy.
Definition FF : N := 12.
Definition BANG : N := 33.

Definition layer (pg : bytes) : result (option pystr) :=
  Ok (if Str.startswith1 BANG pg then None else Some pg).

Definition render (data : bytes) (n : nat) : result pystr :=
  match Str.split FF data !! pred n with
  | Some pg => Ok (if Str.startswith1 BANG pg then drop 1 pg else pg)
  | None => Raise (LibraryError (py "Wrong page range given"))
  end.

Definition to_csv (df : DataFrame) : result bytes :=
  match Utf8.encode (Str.join [Str.LF]
                       (Str.join (py ",") <$> (df_columns df :: df_rows df))
                     ++ [Str.LF]) with
  | Some data => Ok ([0xEF; 0xBB; 0xBF]%N ++ data)
  | None => Raise UnicodeEncodeError
  end.

Definition libraries : Libraries := {|
  unicode_lower c := [c];
  unicode_nfkd s := s;
  image := pystr;
  Image_open data := Ok data;
  Image_convert_L img := img;
  Image_filter_SHARPEN img := img;
  image_to_string img _ _ := Ok img;
  pdf_text_layers data := Ok (layer <$> Str.split FF data);
  pdf_render_page := render;
  docx_paragraphs data := Ok (Str.split Str.LF data);
  docx_single_paragraph text := Ok text;
  dataframe_to_csv := to_csv
|}.

Definition empty_world : world := World ∅ [].

Definition noon : datetime := DateTime 2024 3 9 12 0 0.

Definition file_of (name : string) (data : bytes) : FileStorage :=
  {| fs_filename := py name; fs_stream := data |}.

Definition upload (name : string) (data : bytes) (fmt : option string)
  : request :=
  {| request_file := Some (file_of name data);
     form_format := py <$> fmt;
     form_lang := None |}.
End Toy.

(** The worlds that a toy upload goes through: after the save and after
    the extraction. *)
Definition toy_staged (name : string) (data : bytes) (w : world) : world :=
  (write_binary (staging_path (L := Toy.libraries) (Toy.file_of name data))
     data w).2.

Definition toy_extracted (name : string) (data : bytes) (w : world) : world :=
  (dispatch (L := Toy.libraries)
     (staged_name (L := Toy.libraries) (Toy.file_of name data))
     (staging_path (L := Toy.libraries) (Toy.file_of name data))
     (py "eng+hin") (toy_staged name data w)).2.

(** A toy document of three pages: a page with an embedded text layer, a
    scan, and a page whose text layer is too short to count. *)
Definition toy_pdf : bytes :=
  py "This page has an embedded text layer." ++ [Toy.FF]
  ++ py "!handwritten words" ++ [Toy.FF] ++ py "  p. 3  ".

Definition toy_pdf_world : world :=
  World {[ py "uploads/doc.pdf" := toy_pdf ]} [].

Definition toy_pdf_outcomes : list (pystr * list call) :=
  [ (py "This page has an embedded text layer." ++ [Str.LF],
     [CallExtractText 1]);
    (py "handwritten words" ++ [Str.LF],
     [CallExtractText 2; CallConvertFromPath 2 2;
      CallImageToString (py "eng")]);
    (py "  p. 3  " ++ [Str.LF],
     [CallExtractText 3; CallConvertFromPath 3 3;
      CallImageToString (py "eng")]) ].

(** ** CSV files

    What pandas writes for [to_csv(path, index=False,
    encoding='utf-8-sig')], through [csv.writer] with minimal quoting, and
    what a CSV reader finds in such a file. *)

Module Csv.
Local Open Scope N_scope.

Definition COMMA : N := 44.
Definition QUOTE : N := 34.
Definition BOM : bytes := [0xEF; 0xBB; 0xBF].

(** A character that makes the writer quote the field: the delimiter, the
    quote character and the newline characters ([csv.writer] quotes both
    newline characters since Python 3.13; before, only those of the line
    terminator). *)
Definition special (c : N) : bool :=
  (c =? COMMA) || (c =? QUOTE) || (c =? Str.LF) || (c =? Str.CR).

Definition quoted (f : pystr) : pystr :=
  QUOTE :: (f ≫= λ c, if c =? QUOTE then [QUOTE; QUOTE] else [c]) ++ [QUOTE].

(** A field as written; the empty field of a one-field row is written as
    two quotes. *)
Definition field (alone : bool) (f : pystr) : pystr :=
  if existsb special f || alone && negb (Str.truthy f) then quoted f else f.

(** A row as written, ended by [os.linesep]. *)
Definition row (cells : list pystr) : pystr :=
  Str.join [COMMA] (field (bool_decide (length cells = 1%nat)) <$> cells)
  ++ [Str.LF].

(** The text of the file: the header row, then the data rows. *)
Definition text (df : DataFrame) : pystr :=
  row (df_columns df) ++ (df_rows df ≫= row).

(** The bytes of the file: the byte order mark and the encoded text;
    [None] when the text cannot be encoded. *)
Definition to_csv (df : DataFrame) : option bytes :=
  app BOM <$> Utf8.encode (text df).

(** The reader, as the automaton of [csv.reader]. *)
Inductive state :=
| StartRecord | StartField | InField | InQuoted | QuoteInQuoted | EatCRNL.

(** One character: the next state, the field and the record being read,
    and the record completed by this character, if any. *)
Definition start_field (rec : list pystr) (c : N)
  : state * pystr * list pystr * option (list pystr) :=
  if c =? QUOTE then (InQuoted, [], rec, None)
  else if c =? COMMA then (StartField, [], rec ++ [[]], None)
  else if c =? Str.LF then (StartRecord, [], [], Some (rec ++ [[]]))
  else if c =? Str.CR then (EatCRNL, [], [], Some (rec ++ [[]]))
  else (InField, [c], rec, None).

Definition start_record (c : N)
  : state * pystr * list pystr * option (list pystr) :=
  if c =? Str.LF then (StartRecord, [], [], Some [])
  else if c =? Str.CR then (EatCRNL, [], [], Some [])
  else start_field [] c.

Definition step (st : state) (fld : pystr) (rec : list pystr) (c : N)
  : state * pystr * list pystr * option (list pystr) :=
  match st with
  | StartRecord => start_record c
  | EatCRNL =>
      if c =? Str.LF then (StartRecord, [], [], None) else start_record c
  | StartField => start_field rec c
  | InField =>
      if c =? COMMA then (StartField, [], rec ++ [fld], None)
      else if c =? Str.LF then (StartRecord, [], [], Some (rec ++ [fld]))
      else if c =? Str.CR then (EatCRNL, [], [], Some (rec ++ [fld]))
      else (InField, fld ++ [c], rec, None)
  | InQuoted =>
      if c =? QUOTE then (QuoteInQuoted, fld, rec, None)
      else (InQuoted, fld ++ [c], rec, None)
  | QuoteInQuoted =>
      if c =? QUOTE then (InQuoted, fld ++ [QUOTE], rec, None)
      else if c =? COMMA then (StartField, [], rec ++ [fld], None)
      else if c =? Str.LF then (StartRecord, [], [], Some (rec ++ [fld]))
      else if c =? Str.CR then (EatCRNL, [], [], Some (rec ++ [fld]))
      else (InField, fld ++ [c], rec, None)
  end.

(** The records of a text. *)
Fixpoint parse (st : state) (fld : pystr) (rec : list pystr) (s : pystr)
  : list (list pystr) :=
  match s with
  | [] =>
      match st with
      | StartRecord | EatCRNL => []
      | _ => [rec ++ [fld]]
      end
  | c :: r =>
      match step st fld rec c with
      | (st', fld', rec', Some done) => done :: parse st' fld' rec' r
      | (st', fld', rec', None) => parse st' fld' rec' r
      end
  end.

(** [b.decode('utf-8-sig')] *)
Definition decode_sig (data : bytes) : option pystr :=
  match data with
  | 0xEF :: 0xBB :: 0xBF :: rest => Utf8.decode rest
  | _ => Utf8.decode data
  end.

(** The records of a file: the header row first, then the data rows. *)
Definition read (data : bytes) : option (list (list pystr)) :=
  parse StartRecord [] [] <$> decode_sig data.
End Csv.

(** * Vocabulary of the further properties *)

(** ** [download], lines 129–131 *)

(** [send_file(path, as_attachment=True)]: the bytes of the file.  Flask
    resolves a relative path against [app.root_path], the directory of
    [app.py]; [root] is that directory as seen from the working directory
    in which [uploads] and [outputs] were made, empty when the two are the
    same.  A missing file raises. *)
Definition send_file (root path : pystr) : M bytes :=
  read_binary (os_path_join root path).

Definition download (root filename : pystr) : M bytes :=
  send_file root (os_path_join OUTPUT_FOLDER filename).

(** ** Calls, failures and messages *)

(** A call that renders one page only, or reads with the language [lang]. *)
Definition call_ok (lang : pystr) (c : call) : Prop :=
  match c with
  | CallExtractText _ => True
  | CallConvertFromPath first_page last_page => first_page = last_page
  | CallImageToString l => l = lang
  end.

(** A computation that only adds calls to the log, all of them in [P]. *)
Definition logs {A} (P : call → Prop) (m : M A) : Prop :=
  ∀ w, ∃ cs, calls (m w).2 = calls w ++ cs ∧ Forall P cs.

Definition NO_FILE_PART : pystr := py "No file part".
Definition NO_SELECTED_FILE : pystr := py "No selected file".
Definition MD_HEADING : pystr := py "# OCR Result" ++ [Str.LF; Str.LF].

Section FurtherVocabulary.
Context {L : Libraries}.

(** The first collaborator that raises on a page, with the calls made on
    that page until then. *)
Inductive page_failure (data : bytes) (lang : pystr) (p : page)
  : exn → list call → Prop :=
| failure_extract e :
    page_layer p = Raise e →
    page_failure data lang p e [CallExtractText (page_number p)]
| failure_render content e :
    page_layer p = Ok content →
    ¬ digitally_authored content →
    pdf_render_page data (page_number p) = Raise e →
    page_failure data lang p e
      [CallExtractText (page_number p);
       CallConvertFromPath (page_number p) (page_number p)]
| failure_ocr content img e :
    page_layer p = Ok content →
    ¬ digitally_authored content →
    pdf_render_page data (page_number p) = Ok img →
    image_to_string (preprocess_image img) lang OCR_CONFIG = Raise e →
    page_failure data lang p e
      [CallExtractText (page_number p);
       CallConvertFromPath (page_number p) (page_number p);
       CallImageToString lang].
End FurtherVocabulary.

(** ** Collaborators that can fail

    As the toy ones, but the OCR engine gives up on an image without ink
    and the document writer refuses control characters. *)

Module Strict.
Definition xml_char (c : N) : bool :=
  ((c =? 0x09) || (c =? 0x0A) || (c =? 0x0D) || (0x20 <=? c))%N.

Definition ocr (img : pystr) : result pystr :=
  if Str.truthy (Str.strip img) then Ok img
  else Raise (LibraryError (py "tesseract: empty page")).

Definition paragraph (text : pystr) : result bytes :=
  if forallb xml_char text then Ok text
  else Raise (LibraryError (py "All strings must be XML compatible")).

Definition libraries : Libraries := {|
  unicode_lower c := [c];
  unicode_nfkd s := s;
  image := pystr;
  Image_open data := Ok data;
  Image_convert_L img := img;
  Image_filter_SHARPEN img := img;
  image_to_string img _ _ := ocr img;
  pdf_text_layers data := Ok (Toy.layer <$> Str.split Toy.FF data);
  pdf_render_page := Toy.render;
  docx_paragraphs data := Ok (Str.split Str.LF data);
  docx_single_paragraph := paragraph;
  dataframe_to_csv := Toy.to_csv
|}.

(** A document whose second page is a scan without ink. *)
Definition faulty_pdf : bytes :=
  py "This page has an embedded text layer." ++ [Toy.FF]
  ++ py "!" ++ [Toy.FF] ++ py "!more".

Definition faulty_pdf_world : world :=
  World {[ py "uploads/doc.pdf" := faulty_pdf ]} [].
End Strict.

(** * Properties *)

Example allowed_file_pdf : allowed_file (λ c, [c]) (py "Scan.01.PDF") = true.
Proof. vm_compute. reflexivity. Qed.

Example allowed_file_nodot : allowed_file (λ c, [c]) (py "README") = false.
Proof. vm_compute. reflexivity. Qed.

Example allowed_file_exe : allowed_file (λ c, [c]) (py "a.exe") = false.
Proof. vm_compute. reflexivity. Qed.

Example utf8_euro : Utf8.encode [0x20AC%N] = Some [0xE2; 0x82; 0xAC]%N.
Proof. reflexivity. Qed.

Example utf8_decode_ff : Utf8.decode [0xFF%N] = None.
Proof. reflexivity. Qed.

Example utf8_decode_overlong : Utf8.decode [0xC0; 0x80]%N = None.
Proof. reflexivity. Qed.

Example universal_newlines_crlf :
  Utf8.universal_newlines (py "a" ++ [13; 10; 13]%N ++ py "b")
  = py "a" ++ [10; 10]%N ++ py "b".
Proof. reflexivity. Qed.

Ltac bool_to_prop :=
  repeat match goal with
  | H : (_ && _) = true |- _ => apply andb_prop in H; destruct H
  | H : (_ && _) = false |- _ => apply andb_false_iff in H; destruct H
  | H : (_ || _) = false |- _ => apply orb_false_elim in H; destruct H
  | H : (_ || _) = true |- _ => apply orb_prop in H; destruct H
  | H : negb _ = true |- _ => apply negb_true_iff in H
  | H : negb _ = false |- _ => apply negb_false_iff in H
  | H : (_ <? _)%N = true |- _ => apply N.ltb_lt in H
  | H : (_ <? _)%N = false |- _ => apply N.ltb_ge in H
  | H : (_ <=? _)%N = true |- _ => apply N.leb_le in H
  | H : (_ <=? _)%N = false |- _ => apply N.leb_gt in H
  | H : (_ =? _)%N = true |- _ => apply N.eqb_eq in H
  | H : (_ =? _)%N = false |- _ => apply N.eqb_neq in H
  end.

Ltac Zify.zify_post_hook ::= Z.to_euclidean_division_equations.

Section Utf8Facts.
Local Open Scope N_scope.
Import Utf8.

Local Ltac pick b v :=
  replace b with v
    by (symmetry;
        first [ apply N.ltb_lt | apply N.ltb_ge
              | apply N.leb_le | apply N.leb_gt ]; lia).

Lemma decode_1 b0 r :
  b0 < 0x80 → decode (b0 :: r) = cons b0 <$> decode r.
Proof. intros. cbn [decode]. by pick (b0 <? 0x80) true. Qed.

Lemma decode_2 b0 b1 r :
  0xC0 ≤ b0 < 0xE0 → 0x80 ≤ b1 ≤ 0xBF →
  0x80 ≤ (b0 - 0xC0) * 64 + (b1 - 0x80) →
  decode (b0 :: b1 :: r)
  = cons ((b0 - 0xC0) * 64 + (b1 - 0x80)) <$> decode r.
Proof.
  intros. cbn [decode]. unfold cont. cbv zeta.
  pick (b0 <? 0x80) false. pick (b0 <? 0xC0) false. pick (b0 <? 0xE0) true.
  pick (0x80 <=? b1) true. pick (b1 <=? 0xBF) true.
  by pick (0x80 <=? (b0 - 0xC0) * 64 + (b1 - 0x80)) true.
Qed.

Lemma decode_3 b0 b1 b2 r :
  let v := (b0 - 0xE0) * 4096 + (b1 - 0x80) * 64 + (b2 - 0x80) in
  0xE0 ≤ b0 < 0xF0 → 0x80 ≤ b1 ≤ 0xBF → 0x80 ≤ b2 ≤ 0xBF →
  0x800 ≤ v → (v < 0xD800 ∨ 0xE000 ≤ v) →
  decode (b0 :: b1 :: b2 :: r) = cons v <$> decode r.
Proof.
  intros v ? ? ? ? Hs. cbn [decode]. unfold cont, surrogate. cbv zeta.
  fold v.
  pick (b0 <? 0x80) false. pick (b0 <? 0xC0) false.
  pick (b0 <? 0xE0) false. pick (b0 <? 0xF0) true.
  pick (0x80 <=? b1) true. pick (b1 <=? 0xBF) true.
  pick (0x80 <=? b2) true. pick (b2 <=? 0xBF) true.
  pick (0x800 <=? v) true.
  destruct Hs.
  - by pick (0xD800 <=? v) false.
  - pick (0xD800 <=? v) true. by pick (v <? 0xE000) false.
Qed.

Lemma decode_4 b0 b1 b2 b3 r :
  let v := (b0 - 0xF0) * 262144 + (b1 - 0x80) * 4096
           + (b2 - 0x80) * 64 + (b3 - 0x80) in
  0xF0 ≤ b0 < 0xF8 → 0x80 ≤ b1 ≤ 0xBF → 0x80 ≤ b2 ≤ 0xBF →
  0x80 ≤ b3 ≤ 0xBF → 0x10000 ≤ v < 0x110000 →
  decode (b0 :: b1 :: b2 :: b3 :: r) = cons v <$> decode r.
Proof.
  intros v ? ? ? ? ?. cbn [decode]. unfold cont. cbv zeta. fold v.
  pick (b0 <? 0x80) false. pick (b0 <? 0xC0) false.
  pick (b0 <? 0xE0) false. pick (b0 <? 0xF0) false. pick (b0 <? 0xF8) true.
  pick (0x80 <=? b1) true. pick (b1 <=? 0xBF) true.
  pick (0x80 <=? b2) true. pick (b2 <=? 0xBF) true.
  pick (0x80 <=? b3) true. pick (b3 <=? 0xBF) true.
  pick (0x10000 <=? v) true. by pick (v <? 0x110000) true.
Qed.

(** Decoding undoes the encoding of one code point. *)
Lemma decode_encode_cp c b rest :
  encode_cp c = Some b → decode (b ++ rest) = cons c <$> decode rest.
Proof.
  unfold encode_cp, surrogate.
  repeat case_match; intros [= <-]; bool_to_prop; cbn [app].
  all: first [ by apply decode_1
             | rewrite decode_2 by lia
             | rewrite decode_3 by lia
             | rewrite decode_4 by lia ].
  all: do 2 f_equal; lia.
Qed.

(** Round trip of the codec: every encodable string decodes back to
    itself. *)
Lemma decode_encode s bs : encode s = Some bs → decode bs = Some s.
Proof.
  revert bs. induction s as [|c s IH]; intros bs; cbn [encode].
  - by intros [= <-].
  - destruct (encode_cp c) as [b|] eqn:Hc; [|done].
    destruct (encode s) as [bs'|]; [|done]. intros [= <-].
    by rewrite (decode_encode_cp _ _ _ Hc), (IH _ eq_refl).
Qed.

Lemma encode_cp_scalar c : is_Some (encode_cp c) ↔ scalar c = true.
Proof.
  destruct (scalar c) eqn:Hs; unfold scalar, surrogate in Hs;
    unfold encode_cp, surrogate; repeat case_match; bool_to_prop;
    split; intros Hx;
    first [ done | by eexists | by destruct Hx as [? [=]] | exfalso; lia ].
Qed.

(** [encode] succeeds exactly on strings of scalar values. *)
Lemma encode_is_Some s :
  is_Some (encode s) ↔ Forall (λ c, scalar c = true) s.
Proof.
  induction s as [|c s IH]; cbn [encode].
  - split; [constructor | by eexists].
  - rewrite Forall_cons, <- IH, <- encode_cp_scalar.
    destruct (encode_cp c), (encode s); split;
      try (intros [? [=]]); try (intros [[? [=]] [? [=]]]);
      try (by eexists); try (by split; eexists).
Qed.

(** On POSIX the newline translation on output changes nothing. *)
Lemma write_newlines_id s : write_newlines s = s.
Proof.
  unfold write_newlines, os_linesep.
  induction s as [|c s IH]; [done|]. cbn. rewrite IH.
  destruct (c =? Str.LF) eqn:E; [|done]. by apply N.eqb_eq in E; subst.
Qed.
End Utf8Facts.

Example strftime_example :
  strftime (DateTime 2024 3 9 7 5 59) = py "20240309_070559".
Proof. reflexivity. Qed.

(** ** Facts about the string methods *)

Section StrFacts.
Import Str.

Lemma rfind_None sep s : rfind sep s = None ↔ sep ∉ s.
Proof.
  induction s as [|c s IH]; cbn [rfind].
  - split; [intros _; apply not_elem_of_nil | done].
  - rewrite not_elem_of_cons, <- IH.
    destruct (rfind sep s); [split; [done | by intros [_ ?]]|].
    destruct (c =? sep)%N eqn:E; bool_to_prop.
    + split; [done | intros [? _]; congruence].
    + split; [intros _; split; [congruence | done] | done].
Qed.

(** [rfind] finds the separator that no other separator follows. *)
Lemma rfind_app sep stem ext :
  sep ∉ ext → rfind sep (stem ++ sep :: ext) = Some (length stem).
Proof.
  intros Hext. induction stem as [|c stem IH]; cbn [rfind app length].
  - apply rfind_None in Hext. rewrite Hext. by rewrite N.eqb_refl.
  - by rewrite IH.
Qed.

Lemma rfind_Some sep s i :
  rfind sep s = Some i →
  s = take i s ++ sep :: drop (S i) s ∧ sep ∉ drop (S i) s.
Proof.
  revert i. induction s as [|c s IH]; intros i; cbn [rfind]; [done|].
  destruct (rfind sep s) as [j|] eqn:Hj.
  - intros [= <-]. destruct (IH j eq_refl) as [Hs Hd].
    cbn [take drop app]. split; [by f_equal | done].
  - destruct (c =? sep)%N eqn:E; [|done]. intros [= <-]. bool_to_prop.
    subst c. cbn [take drop app]. rewrite ?drop_0.
    split; [done | by apply rfind_None].
Qed.

(** [rsplit1] on a string that holds the separator: the parts before
    and after its last occurrence. *)
Lemma rsplit1_app sep stem ext :
  sep ∉ ext → rsplit1 sep (stem ++ sep :: ext) = [stem; ext].
Proof.
  intros Hext. unfold rsplit1. rewrite rfind_app by done.
  rewrite take_app_length, drop_app_ge by lia.
  by replace (S (length stem) - length stem) with 1 by lia.
Qed.

Lemma rsplit1_nosep sep s : sep ∉ s → rsplit1 sep s = [s].
Proof. intros Hs. unfold rsplit1. by apply rfind_None in Hs as ->. Qed.

(** Every string either lacks the separator or splits at its last
    occurrence. *)
Lemma last_sep_cases (sep : N) (s : pystr) :
  sep ∉ s ∨ ∃ stem ext, s = stem ++ sep :: ext ∧ sep ∉ ext.
Proof.
  destruct (rfind sep s) as [i|] eqn:Hi.
  - right. apply rfind_Some in Hi as [Hs Hd]. eauto.
  - left. by apply rfind_None.
Qed.

Lemma last_sep_unique (sep : N) (stem ext stem' ext' : pystr) :
  stem ++ sep :: ext = stem' ++ sep :: ext' →
  sep ∉ ext → sep ∉ ext' → stem = stem' ∧ ext = ext'.
Proof.
  intros Heq Hext Hext'.
  pose proof (rsplit1_app sep stem ext Hext) as H1.
  pose proof (rsplit1_app sep stem' ext' Hext') as H2.
  rewrite Heq, H2 in H1. by injection H1 as -> ->.
Qed.
End StrFacts.

(** ** The Format Gate *)

Section FormatGateFacts.
Variable ul : N → pystr.

Lemma allowed_extension_letters (a : pystr) :
  a ∈ ALLOWED_EXTENSIONS → Forall (λ d, (0x61 ≤ d ≤ 0x7A)%N) a.
Proof.
  unfold ALLOWED_EXTENSIONS.
  rewrite !elem_of_union, !elem_of_singleton.
  intros [[[[[->| ->]| ->]| ->]| ->]| ->]; cbv [py fmap list_fmap
    list_ascii_of_string N_of_ascii N_of_digits N.add N.mul Pos.add
    Pos.succ Pos.mul]; repeat constructor; lia.
Qed.

Lemma lower_case_variant (e a : pystr) :
  Forall (λ d, (0x61 ≤ d ≤ 0x7A)%N) a → case_variant e a →
  Str.lower ul e = a ∧ Str.DOT ∉ e.
Proof.
  intros Ha Hv. induction Hv as [|c d e a Hcd Hv IH].
  - split; [done | apply not_elem_of_nil].
  - apply Forall_cons in Ha as [Hd Ha]. destruct (IH Ha) as [IH1 IH2].
    unfold Str.DOT. split.
    + unfold Str.lower in *. cbn [mbind list_bind]. rewrite IH1.
      unfold Str.lower_cp.
      destruct Hcd as [->|[_ <-]].
      * replace (d <? 0x80)%N with true by (symmetry; apply N.ltb_lt; lia).
        replace (d <=? 0x5A)%N with false
          by (symmetry; apply N.leb_gt; lia).
        by rewrite andb_false_r.
      * replace (c <? 0x80)%N with true by (symmetry; apply N.ltb_lt; lia).
        replace (0x41 <=? c)%N with true by (symmetry; apply N.leb_le; lia).
        by replace (c <=? 0x5A)%N with true
          by (symmetry; apply N.leb_le; lia).
    + apply not_elem_of_cons. split; [|done].
      destruct Hcd as [->|[_ <-]]; lia.
Qed.
End FormatGateFacts.

(** C3. [allowed_file] is true exactly for the filenames that hold a dot
    and whose part after the final dot, lower-cased, is one of pdf, png,
    jpg, jpeg, docx, txt; so it is false for every filename without a dot
    and true for every filename ending in a dot and an allowed extension
    written in any letter case. *)
Theorem allowed_file_spec (ul : N → pystr) (filename : pystr) :
  (allowed_file ul filename = true ↔
     ∃ stem ext, filename = stem ++ Str.DOT :: ext ∧ (Str.DOT ∉ ext)
                 ∧ Str.lower ul ext ∈ ALLOWED_EXTENSIONS)
  ∧ (Str.DOT ∉ filename → allowed_file ul filename = false)
  ∧ (∀ stem e a, a ∈ ALLOWED_EXTENSIONS → case_variant e a →
       allowed_file ul (stem ++ Str.DOT :: e) = true).
Proof.
  assert (Hyes : ∀ stem ext : pystr, Str.DOT ∉ ext →
            allowed_file ul (stem ++ Str.DOT :: ext)
            = bool_decide (Str.lower ul ext ∈ ALLOWED_EXTENSIONS)).
  { intros stem ext Hext. unfold allowed_file.
    rewrite rsplit1_app by done. cbn [lookup list_lookup].
    rewrite bool_decide_eq_true_2; [done|].
    apply elem_of_app. right. apply elem_of_cons. by left. }
  assert (Hno : Str.DOT ∉ filename → allowed_file ul filename = false).
  { intros Hn. unfold allowed_file. by rewrite bool_decide_eq_false_2. }
  split; [|split]; [|done|].
  - destruct (last_sep_cases Str.DOT filename) as [Hn|(stem & ext & -> & Hext)].
    + rewrite Hno by done. split; [done|].
      intros (stem & ext & -> & _ & _). exfalso. apply Hn.
      apply elem_of_app. right. apply elem_of_cons. by left.
    + rewrite Hyes, bool_decide_eq_true by done. split.
      * intros Hin. by exists stem, ext.
      * intros (stem' & ext' & Heq & Hext' & Hin).
        by destruct (last_sep_unique _ _ _ _ _ Heq Hext Hext') as [_ ->].
  - intros stem e a Ha Hv.
    destruct (lower_case_variant ul e a (allowed_extension_letters a Ha) Hv)
      as [Hl He].
    rewrite Hyes by done. apply bool_decide_eq_true. by rewrite Hl.
Qed.

Example scenario_hello_txt :
  process (L := Toy.libraries) Toy.noon
          (Toy.upload "hello.txt" (py "Hello World") (Some "txt"%string))
          Toy.empty_world
  = (Json200 (py "Hello World")
             (py "/download/hello_20240309_120000.txt")
             (py "hello_20240309_120000.txt"),
     World {[ py "outputs/hello_20240309_120000.txt" := py "Hello World" ]} []).
Proof. vm_compute. reflexivity. Qed.

(** ** Reasoning about computations *)

Lemma run_bind {A B} (m : M A) (f : A → M B) (w : world) :
  (m ≫= f) w
  = match m w with
    | (Ok a, w') => f a w'
    | (Raise e, w') => (Raise e, w')
    end.
Proof. reflexivity. Qed.

Create HintDb keeps discriminated.

Section Keeps.
Context {A B : Type}.

Lemma keeps_ret (a : A) : keeps_files (mret a : M A).
Proof. by intros w. Qed.

Lemma keeps_lift (r : result A) : keeps_files (lift r).
Proof. by intros w. Qed.

Lemma keeps_raise (e : exn) : keeps_files (raise e : M A).
Proof. by intros w. Qed.

Lemma keeps_bind (m : M A) (f : A → M B) :
  keeps_files m → (∀ a, keeps_files (f a)) → keeps_files (m ≫= f).
Proof.
  intros Hm Hf w. rewrite run_bind. specialize (Hm w).
  destruct (m w) as [[a|e] w']; cbn in *; [|done].
  by rewrite (Hf a w').
Qed.

End Keeps.

Lemma keeps_mapM {A B} (f : A → M B) (l : list A) :
  (∀ a, keeps_files (f a)) → keeps_files (mapM f l).
Proof.
  intros Hf. induction l as [|a l IH]; cbn [mapM].
  - apply keeps_ret.
  - apply keeps_bind; [done|]. intros b.
    apply keeps_bind; [done|]. intros bs. by intros w.
Qed.

Lemma keeps_log (c : call) : keeps_files (log c).
Proof. by intros w. Qed.

Lemma keeps_read_binary (path : pystr) : keeps_files (read_binary path).
Proof. intros w. unfold read_binary. by destruct (files w !! path). Qed.

Lemma keeps_read_text (path : pystr) : keeps_files (read_text path).
Proof.
  apply keeps_bind; [apply keeps_read_binary|]. intros data.
  destruct (Utf8.decode data); [apply keeps_ret | apply keeps_raise].
Qed.

#[global] Hint Resolve keeps_ret keeps_lift keeps_raise keeps_log
  keeps_read_binary keeps_read_text : keeps.
#[global] Hint Extern 2 (keeps_files (_ ≫= _)) =>
  apply keeps_bind; [|intros ?] : keeps.
#[global] Hint Extern 2 (keeps_files (mapM _ _)) =>
  apply keeps_mapM; intros ? : keeps.

Section AppKeeps.
Context {L : Libraries}.

Lemma keeps_extract_ocr img lang : keeps_files (extract_ocr img lang).
Proof. unfold extract_ocr. auto with keeps. Qed.

Lemma keeps_ocr_images lang images text :
  keeps_files (ocr_images lang images text).
Proof.
  revert text. induction images as [|img rest IH]; intros text;
    cbn [ocr_images]; auto using keeps_extract_ocr with keeps.
Qed.

Lemma keeps_convert_from_path path a b :
  keeps_files (convert_from_path path a b).
Proof. unfold convert_from_path. auto 6 with keeps. Qed.

Lemma keeps_pdf_pages_loop path lang pages text :
  keeps_files (pdf_pages_loop path lang pages text).
Proof.
  revert text. induction pages as [|p rest IH]; intros text;
    cbn [pdf_pages_loop]; [auto with keeps|].
  apply keeps_bind; [unfold extract_text; auto with keeps|].
  intros content. apply keeps_bind; [|done].
  destruct (has_text content); [auto with keeps|].
  apply keeps_bind; [apply keeps_convert_from_path|].
  intros images. apply keeps_ocr_images.
Qed.

Lemma keeps_process_pdf path lang : keeps_files (process_pdf path lang).
Proof.
  unfold process_pdf, pdfplumber_pages.
  apply keeps_bind; [auto 6 with keeps|].
  intros pages. apply keeps_pdf_pages_loop.
Qed.

(** The extractors only read. *)
Lemma keeps_dispatch filename input_path lang :
  keeps_files (dispatch filename input_path lang).
Proof.
  unfold dispatch. apply keeps_bind; [auto with keeps|]. intros ext.
  repeat case_bool_decide;
    auto 6 using keeps_process_pdf, keeps_extract_ocr with keeps.
Qed.
End AppKeeps.

(** ** The Request Orchestrator *)

Section Orchestrator.
Context {L : Libraries}.

(** The course of a request whose upload was saved. *)
Lemma process_staged now req w file w1 :
  request_file req = Some file → fs_filename file ≠ [] →
  write_binary (staging_path file) (fs_stream file) w = (Ok tt, w1) →
  process now req w
  = (response_of (try_body now (staged_name file) (staging_path file)
                    (target_format_of req) (lang_choice_of req) w1).1,
     finally_cleanup (staging_path file)
       (try_body now (staged_name file) (staging_path file)
          (target_format_of req) (lang_choice_of req) w1).2).
Proof.
  intros Hfile Hname Hsave. unfold process. rewrite Hfile.
  destruct (fs_filename file) eqn:Hf; [done|]. cbn [Str.truthy negb].
  rewrite <- Hf. fold (staged_name file). fold (staging_path file).
  rewrite Hsave. fold (target_format_of req) (lang_choice_of req).
  by destruct (try_body _ _ _ _ _ _) as [[resp|e] w2].
Qed.

Lemma write_binary_Ok path data w w1 :
  write_binary path data w = (Ok tt, w1) →
  w1 = World (<[path := data]> (files w)) (calls w).
Proof.
  unfold write_binary. destruct (name_too_long path); [done|].
  destruct (Str.endswith1 _ _); [done|]. by intros [= <-].
Qed.

Lemma finally_cleanup_absent path w :
  files (finally_cleanup path w) !! path = None.
Proof.
  unfold finally_cleanup, os_path_exists, os_remove.
  case_bool_decide as Hex; cbn [files].
  - apply lookup_delete_eq.
  - by apply eq_None_not_Some.
Qed.

Lemma finally_cleanup_files path w :
  files (finally_cleanup path w) = delete path (files w).
Proof.
  unfold finally_cleanup, os_path_exists, os_remove.
  case_bool_decide as Hex; cbn [files]; [done|].
  symmetry. apply delete_id. by apply eq_None_not_Some.
Qed.

Lemma try_body_not_unhandled now filename input_path fmt lang w e :
  (try_body now filename input_path fmt lang w).1 ≠ Ok (Unhandled e).
Proof.
  unfold try_body. rewrite run_bind.
  destruct (dispatch _ _ _ _) as [[text|e1] w1]; [|done].
  destruct (negb _); [done|]. rewrite run_bind.
  destruct (lift _ _) as [[base|e2] w2]; [|done]. rewrite run_bind.
  by destruct (save_artifact _ _ _ _) as [[[]|e3] w3].
Qed.
End Orchestrator.

(** C10. A request without a file part, or whose file has an empty name,
    is answered 400 and the world, so the staging directory, is as it
    was: nothing has been saved. *)
Theorem rejected_before_staging {L : Libraries} (now : datetime)
    (req : request) (w : world) :
  request_file req = None
  ∨ (∃ file, request_file req = Some file ∧ fs_filename file = []) →
  ∃ msg, process now req w = (Json400 msg, w).
Proof.
  intros [Hnone|(file & Hfile & Hname)]; unfold process.
  - rewrite Hnone. by eexists.
  - rewrite Hfile, Hname. by eexists.
Qed.

Lemma rejected_before_staging_witness :
  (∃ msg, process (L := Toy.libraries) Toy.noon
            {| request_file := None; form_format := None; form_lang := None |}
            Toy.empty_world = (Json400 msg, Toy.empty_world))
  ∧ (∃ msg, process (L := Toy.libraries) Toy.noon
              (Toy.upload "" (py "data") None)
              (World {[ py "uploads/old.txt" := py "x" ]} [])
            = (Json400 msg, World {[ py "uploads/old.txt" := py "x" ]} [])).
Proof.
  split.
  - apply (rejected_before_staging (L := Toy.libraries)). left. reflexivity.
  - apply (rejected_before_staging (L := Toy.libraries)). right.
    eexists. split; reflexivity.
Defined.

(** C4. Once the upload has been saved at the staging path, the view
    answers with one of its own responses (200, 400 or 500) and the
    staged file is not in the world that it leaves. *)
Theorem staged_upload_removed {L : Libraries} (now : datetime)
    (req : request) (w w1 : world) (file : FileStorage) :
  request_file req = Some file → fs_filename file ≠ [] →
  write_binary (staging_path file) (fs_stream file) w = (Ok tt, w1) →
  view_response (process now req w).1
  ∧ files (process now req w).2 !! staging_path file = None.
Proof.
  intros Hfile Hname Hsave.
  rewrite (process_staged now req w file w1) by done. cbn [fst snd].
  split; [|apply finally_cleanup_absent].
  pose proof (try_body_not_unhandled now (staged_name file)
                (staging_path file) (target_format_of req)
                (lang_choice_of req) w1) as Hnu.
  destruct (try_body _ _ _ _ _ _).1 as [[]|]; cbn; try done.
  by destruct (Hnu e).
Qed.

Lemma staged_upload_removed_witness :
  (* a success, a handled 400 and an exception turned into a 500 *)
  (view_response
     (process (L := Toy.libraries) Toy.noon
        (Toy.upload "hello.txt" (py "Hello World") None) Toy.empty_world).1
   ∧ files (process (L := Toy.libraries) Toy.noon
              (Toy.upload "hello.txt" (py "Hello World") None)
              Toy.empty_world).2
       !! staging_path (L := Toy.libraries)
            (Toy.file_of "hello.txt" (py "Hello World")) = None)
  ∧ (view_response
       (process (L := Toy.libraries) Toy.noon
          (Toy.upload "blank.txt" (py "  ") None) Toy.empty_world).1
     ∧ files (process (L := Toy.libraries) Toy.noon
                (Toy.upload "blank.txt" (py "  ") None) Toy.empty_world).2
         !! staging_path (L := Toy.libraries)
              (Toy.file_of "blank.txt" (py "  ")) = None)
  ∧ (view_response
       (process (L := Toy.libraries) Toy.noon
          (Toy.upload "bad.txt" [0xFF%N] None) Toy.empty_world).1
     ∧ files (process (L := Toy.libraries) Toy.noon
                (Toy.upload "bad.txt" [0xFF%N] None) Toy.empty_world).2
         !! staging_path (L := Toy.libraries)
              (Toy.file_of "bad.txt" [0xFF%N]) = None).
Proof.
  split; [|split].
  - eapply (staged_upload_removed (L := Toy.libraries));
      [reflexivity | discriminate | reflexivity].
  - eapply (staged_upload_removed (L := Toy.libraries));
      [reflexivity | discriminate | reflexivity].
  - eapply (staged_upload_removed (L := Toy.libraries));
      [reflexivity | discriminate | reflexivity].
Defined.

Example exits_of_the_view :
  (process (L := Toy.libraries) Toy.noon
     (Toy.upload "blank.txt" (py "  ") None) Toy.empty_world).1
  = Json400 (py "Could not detect any text. Ensure the image is clear.")
  ∧ (process (L := Toy.libraries) Toy.noon
       (Toy.upload "bad.txt" [0xFF%N] None) Toy.empty_world).1
    = Json500 UnicodeDecodeError.
Proof. split; vm_compute; reflexivity. Qed.

(** ** Whitespace and blank text *)

Section StripFacts.
Import Str.
Variable p : N → bool.

Lemma lstrip_by_nil s : lstrip_by p s = [] ↔ Forall (λ c, p c = true) s.
Proof.
  induction s as [|c s IH]; cbn [lstrip_by]; [by split|].
  rewrite Forall_cons. destruct (p c) eqn:Hc.
  - rewrite IH. by intuition.
  - split; [done | by intros [? _]].
Qed.

Lemma Forall_lstrip_by s :
  Forall (λ c, p c = true) (lstrip_by p s) ↔ Forall (λ c, p c = true) s.
Proof.
  induction s as [|c s IH]; cbn [lstrip_by]; [done|].
  destruct (p c) eqn:Hc; [|done].
  rewrite IH, Forall_cons. by intuition.
Qed.

Lemma rstrip_by_nil s : rstrip_by p s = [] ↔ Forall (λ c, p c = true) s.
Proof.
  unfold rstrip_by. rewrite <- (Forall_reverse _ s), <- lstrip_by_nil.
  split; [|by intros ->].
  intros Hr. apply (f_equal reverse) in Hr.
  by rewrite reverse_involutive in Hr.
Qed.

(** Stripping leaves nothing exactly when every character is in the
    stripped set. *)
Lemma strip_by_nil s : strip_by p s = [] ↔ Forall (λ c, p c = true) s.
Proof. unfold strip_by. by rewrite rstrip_by_nil, Forall_lstrip_by. Qed.
End StripFacts.

Lemma strip_blank s : Str.truthy (Str.strip s) = false ↔ blank s.
Proof.
  unfold blank, Str.strip. rewrite <- strip_by_nil.
  by destruct (Str.strip_by _ s).
Qed.

Lemma strip_not_blank s :
  Str.truthy (Str.strip s) = true ↔ Exists (λ c, Str.isspace c = false) s.
Proof.
  rewrite <- not_false_iff_true, strip_blank. unfold blank.
  induction s as [|c s IH].
  - split; [intros Hn; by destruct Hn | by intros ?%Exists_nil].
  - rewrite Forall_cons, Exists_cons, <- IH.
    destruct (Str.isspace c); intuition congruence.
Qed.

(** ** From the extracted text to the response *)

Section Extracted.
Context {L : Libraries}.

Lemma getitem_rsplit1_0 filename :
  getitem (Str.rsplit1 Str.DOT filename) 0 = Ok (base_name_of filename).
Proof.
  unfold Str.rsplit1, base_name_of.
  by destruct (Str.rfind Str.DOT filename).
Qed.

(** What the view answers and leaves once the extraction has given
    [text]. *)
Lemma process_extracted now req w w1 w2 file text :
  request_file req = Some file → fs_filename file ≠ [] →
  write_binary (staging_path file) (fs_stream file) w = (Ok tt, w1) →
  dispatch (staged_name file) (staging_path file) (lang_choice_of req) w1
  = (Ok text, w2) →
  process now req w
  = if Str.truthy (Str.strip text) then
      let saved := save_artifact (artifact_path now req file)
                     (target_format_of req) text w2 in
      (match saved.1 with
       | Ok _ => Json200 (take 1500 text)
                   (py "/download/" ++ artifact_name now req file)
                   (artifact_name now req file)
       | Raise e => Json500 e
       end,
       finally_cleanup (staging_path file) saved.2)
    else (Json400 NO_TEXT, finally_cleanup (staging_path file) w2).
Proof.
  intros Hfile Hname Hsave Hd.
  rewrite (process_staged now req w file w1) by done.
  unfold try_body. rewrite run_bind, Hd.
  destruct (Str.truthy (Str.strip text)); cbn [negb]; [|done].
  rewrite run_bind, getitem_rsplit1_0. cbn [lift]. rewrite run_bind.
  fold (artifact_name now req file). fold (artifact_path now req file).
  cbv zeta.
  by destruct (save_artifact _ _ _ _) as [[[]|e] w3].
Qed.

(** The files after the extraction: the staged upload has been added. *)
Lemma files_after_dispatch filename path data lang w w1 w2 r :
  write_binary path data w = (Ok tt, w1) →
  dispatch filename path lang w1 = (r, w2) →
  files w2 = <[path := data]> (files w).
Proof.
  intros ->%write_binary_Ok Hd.
  pose proof (keeps_dispatch filename path lang
                (World (<[path:=data]> (files w)) (calls w))) as Hk.
  by rewrite Hd in Hk.
Qed.

Lemma save_artifact_unrecognized out_path fmt text w :
  ¬ recognized_format fmt →
  save_artifact out_path fmt text w = (Ok tt, w).
Proof.
  intros Hn. unfold save_artifact.
  repeat case_bool_decide; try done; subst; exfalso; apply Hn;
    unfold recognized_format; rewrite !elem_of_cons; auto 10.
Qed.
End Extracted.

Section Writes.
(** What a write that did not raise has done. *)
Lemma write_binary_inv (path : pystr) (data : bytes) (w : world) :
  (write_binary path data w).1 = Ok tt →
  (write_binary path data w).2
  = World (<[path := data]> (files w)) (calls w).
Proof.
  unfold write_binary. destruct (name_too_long path); [done|].
  by destruct (Str.endswith1 _ _).
Qed.

Lemma write_text_inv (path text : pystr) (w : world) :
  (write_text path text w).1 = Ok tt →
  ∃ data, Utf8.encode text = Some data
          ∧ (write_text path text w).2
            = World (<[path := data]> (files w)) (calls w).
Proof.
  unfold write_text. destruct (name_too_long path); [done|].
  destruct (Str.endswith1 _ _); [done|]. rewrite write_newlines_id.
  destruct (Utf8.encode text) as [data|]; [|done]. by exists data.
Qed.

(** A write that raised because of the name has changed nothing. *)
Lemma write_binary_raise (path : pystr) (data : bytes) (w : world) (e : exn) :
  (write_binary path data w).1 = Raise e → (write_binary path data w).2 = w.
Proof.
  unfold write_binary. destruct (name_too_long path); [done|].
  by destruct (Str.endswith1 _ _).
Qed.
End Writes.

Section Answers.
Context {L : Libraries}.

(** Everything that a 200 answer tells about the course of the request. *)
Lemma process_success_inv now req w preview url name :
  (process now req w).1 = Json200 preview url name →
  ∃ file text w1 w2,
    request_file req = Some file ∧ fs_filename file ≠ []
    ∧ write_binary (staging_path file) (fs_stream file) w = (Ok tt, w1)
    ∧ dispatch (staged_name file) (staging_path file) (lang_choice_of req) w1
      = (Ok text, w2)
    ∧ Str.truthy (Str.strip text) = true
    ∧ (save_artifact (artifact_path now req file) (target_format_of req)
         text w2).1 = Ok tt
    ∧ preview = take 1500 text
    ∧ url = py "/download/" ++ name
    ∧ name = artifact_name now req file.
Proof.
  intros Hp. destruct (request_file req) as [file|] eqn:Hfile;
    [|by unfold process in Hp; rewrite Hfile in Hp].
  destruct (fs_filename file) as [|c cs] eqn:Hname;
    [by unfold process in Hp; rewrite Hfile, Hname in Hp|].
  assert (Hne : fs_filename file ≠ []) by by rewrite Hname.
  destruct (write_binary (staging_path file) (fs_stream file) w)
    as [[[]|e] w1] eqn:Hsave.
  2:{ unfold process in Hp. rewrite Hfile, Hname in Hp. cbn [Str.truthy negb] in Hp.
      rewrite <- Hname in Hp. fold (staged_name file) in Hp.
      fold (staging_path file) in Hp. by rewrite Hsave in Hp. }
  destruct (dispatch (staged_name file) (staging_path file)
              (lang_choice_of req) w1) as [[text|e] w2] eqn:Hd.
  2:{ rewrite (process_staged now req w file w1) in Hp by done.
      unfold try_body in Hp. by rewrite run_bind, Hd in Hp. }
  rewrite (process_extracted now req w w1 w2 file text) in Hp by done.
  destruct (Str.truthy (Str.strip text)) eqn:Ht; [|done].
  cbv zeta in Hp. cbn [fst] in Hp.
  destruct (save_artifact _ _ _ w2).1 as [[]|e] eqn:Hs; [|done].
  injection Hp as <- <- <-.
  exists file, text, w1, w2. by rewrite Hs.
Qed.
End Answers.

(** C5. When the extraction gives a text that is empty or all whitespace
    the view answers 400 with its message and the only change to the
    files is that the staged upload is gone: no artifact is written.  A
    200 answer is given only for a text that holds a character other than
    whitespace. *)
Theorem blank_text_rejected {L : Libraries} (now : datetime) (req : request)
    (w w1 w2 : world) (file : FileStorage) (text : pystr) :
  request_file req = Some file → fs_filename file ≠ [] →
  write_binary (staging_path file) (fs_stream file) w = (Ok tt, w1) →
  dispatch (staged_name file) (staging_path file) (lang_choice_of req) w1
  = (Ok text, w2) →
  (blank text →
     (process now req w).1 = Json400 NO_TEXT
     ∧ files (process now req w).2 = delete (staging_path file) (files w))
  ∧ (∀ preview url name, (process now req w).1 = Json200 preview url name →
       Exists (λ c, Str.isspace c = false) text).
Proof.
  intros Hfile Hname Hsave Hd.
  rewrite (process_extracted now req w w1 w2 file text) by done.
  split.
  - intros Hb%strip_blank. rewrite Hb. cbn [fst snd]. split; [done|].
    rewrite finally_cleanup_files.
    rewrite (files_after_dispatch _ _ _ _ _ _ _ _ Hsave Hd).
    apply delete_insert_eq.
  - intros preview url name.
    destruct (Str.truthy (Str.strip text)) eqn:Ht; [|done].
    intros _. by apply strip_not_blank.
Qed.

Lemma blank_text_rejected_witness :
  (blank (py "  ") →
     (process (L := Toy.libraries) Toy.noon
        (Toy.upload "blank.txt" (py "  ") None) Toy.empty_world).1
     = Json400 NO_TEXT
     ∧ files (process (L := Toy.libraries) Toy.noon
                (Toy.upload "blank.txt" (py "  ") None) Toy.empty_world).2
       = delete (staging_path (L := Toy.libraries)
                   (Toy.file_of "blank.txt" (py "  ")))
                (files Toy.empty_world))
  ∧ (∀ preview url name,
       (process (L := Toy.libraries) Toy.noon
          (Toy.upload "blank.txt" (py "  ") None) Toy.empty_world).1
       = Json200 preview url name →
       Exists (λ c, Str.isspace c = false) (py "  ")).
Proof.
  apply (blank_text_rejected (L := Toy.libraries) Toy.noon
           (Toy.upload "blank.txt" (py "  ") None) Toy.empty_world
           (toy_staged "blank.txt" (py "  ") Toy.empty_world)
           (toy_extracted "blank.txt" (py "  ") Toy.empty_world)
           (Toy.file_of "blank.txt" (py "  ")) (py "  "));
    [reflexivity | discriminate
    | vm_compute; reflexivity | vm_compute; reflexivity].
Defined.

(** C6. When the extraction gave a text that is not blank and the target
    format is none of txt, md, docx and csv, the view answers 200 with the
    preview and with the name of an artifact, although the only change to
    the files is that the staged upload is gone: nothing was written at
    the artifact's path. *)
Theorem unrecognized_format_reports_success {L : Libraries} (now : datetime)
    (req : request) (w w1 w2 : world) (file : FileStorage) (text : pystr) :
  request_file req = Some file → fs_filename file ≠ [] →
  write_binary (staging_path file) (fs_stream file) w = (Ok tt, w1) →
  dispatch (staged_name file) (staging_path file) (lang_choice_of req) w1
  = (Ok text, w2) →
  Exists (λ c, Str.isspace c = false) text →
  ¬ recognized_format (target_format_of req) →
  (process now req w).1
  = Json200 (take 1500 text)
            (py "/download/" ++ artifact_name now req file)
            (artifact_name now req file)
  ∧ files (process now req w).2 = delete (staging_path file) (files w)
  ∧ (files w !! artifact_path now req file = None →
     files (process now req w).2 !! artifact_path now req file = None).
Proof.
  intros Hfile Hname Hsave Hd Ht%strip_not_blank Hfmt.
  rewrite (process_extracted now req w w1 w2 file text) by done.
  rewrite Ht, save_artifact_unrecognized by done. cbn [fst snd].
  assert (Hfiles : files (finally_cleanup (staging_path file) w2)
                   = delete (staging_path file) (files w)).
  { rewrite finally_cleanup_files.
    rewrite (files_after_dispatch _ _ _ _ _ _ _ _ Hsave Hd).
    apply delete_insert_eq. }
  split; [done|]. split; [done|].
  intros Hnone. rewrite Hfiles. apply lookup_delete_None. by right.
Qed.

Lemma unrecognized_format_reports_success_witness :
  (process (L := Toy.libraries) Toy.noon
     (Toy.upload "hello.txt" (py "Hello World") (Some "pdf"%string))
     Toy.empty_world).1
  = Json200 (take 1500 (py "Hello World"))
      (py "/download/"
       ++ artifact_name (L := Toy.libraries) Toy.noon
            (Toy.upload "hello.txt" (py "Hello World") (Some "pdf"%string))
            (Toy.file_of "hello.txt" (py "Hello World")))
      (artifact_name (L := Toy.libraries) Toy.noon
         (Toy.upload "hello.txt" (py "Hello World") (Some "pdf"%string))
         (Toy.file_of "hello.txt" (py "Hello World")))
  ∧ files (process (L := Toy.libraries) Toy.noon
             (Toy.upload "hello.txt" (py "Hello World") (Some "pdf"%string))
             Toy.empty_world).2
    = delete (staging_path (L := Toy.libraries)
                (Toy.file_of "hello.txt" (py "Hello World")))
             (files Toy.empty_world)
  ∧ (files Toy.empty_world
       !! artifact_path (L := Toy.libraries) Toy.noon
            (Toy.upload "hello.txt" (py "Hello World") (Some "pdf"%string))
            (Toy.file_of "hello.txt" (py "Hello World")) = None →
     files (process (L := Toy.libraries) Toy.noon
              (Toy.upload "hello.txt" (py "Hello World") (Some "pdf"%string))
              Toy.empty_world).2
       !! artifact_path (L := Toy.libraries) Toy.noon
            (Toy.upload "hello.txt" (py "Hello World") (Some "pdf"%string))
            (Toy.file_of "hello.txt" (py "Hello World")) = None).
Proof.
  apply (unrecognized_format_reports_success (L := Toy.libraries) Toy.noon
           (Toy.upload "hello.txt" (py "Hello World") (Some "pdf"%string))
           Toy.empty_world
           (toy_staged "hello.txt" (py "Hello World") Toy.empty_world)
           (toy_extracted "hello.txt" (py "Hello World") Toy.empty_world)
           (Toy.file_of "hello.txt" (py "Hello World")) (py "Hello World"));
    [reflexivity | discriminate
    | vm_compute; reflexivity | vm_compute; reflexivity
    | apply Exists_cons_hd; reflexivity
    | unfold recognized_format; rewrite !elem_of_cons, elem_of_nil;
      vm_compute; intuition discriminate].
Defined.

Example unrecognized_format_example :
  process (L := Toy.libraries) Toy.noon
    (Toy.upload "hello.txt" (py "Hello World") (Some "pdf"%string))
    Toy.empty_world
  = (Json200 (py "Hello World")
             (py "/download/hello_20240309_120000.pdf")
             (py "hello_20240309_120000.pdf"),
     Toy.empty_world).
Proof. vm_compute. reflexivity. Qed.

(** ** Staged names and paths *)

Section StripShape.
Import Str.
Variable p : N → bool.
Variable P : N → Prop.

Lemma Forall_lstrip_by_keep s : Forall P s → Forall P (lstrip_by p s).
Proof.
  induction 1 as [|c s Hc Hs IH]; cbn [lstrip_by]; [done|].
  destruct (p c); [done | by constructor].
Qed.

Lemma Forall_strip_by_keep s : Forall P s → Forall P (strip_by p s).
Proof.
  intros Hs. unfold strip_by, rstrip_by.
  by apply Forall_reverse, Forall_lstrip_by_keep, Forall_reverse,
    Forall_lstrip_by_keep.
Qed.
End StripShape.

Lemma Forall_filter_bool (f : N → bool) (s : pystr) :
  Forall (λ c, f c = true) (List.filter f s).
Proof.
  induction s as [|c s IH]; cbn [List.filter]; [done|].
  destruct (f c) eqn:Hc; [by constructor | done].
Qed.

Lemma endswith1_snoc (c d : N) (s : pystr) :
  Str.endswith1 c (s ++ [d]) = (d =? c)%N.
Proof. unfold Str.endswith1. by rewrite reverse_snoc. Qed.

Section Paths.
Context {L : Libraries}.

(** [secure_filename] returns letters, digits, underscores, dots and
    hyphens only. *)
Lemma secure_filename_chars (filename : pystr) :
  Forall (λ c, filename_char c = true) (secure_filename filename).
Proof.
  unfold secure_filename. apply Forall_strip_by_keep, Forall_filter_bool.
Qed.

Lemma filename_char_not_slash (s : pystr) :
  Forall (λ c, filename_char c = true) s →
  Str.startswith1 Str.SLASH s = false.
Proof.
  destruct 1 as [|c s Hc _]; [done|]. cbn [Str.startswith1].
  apply N.eqb_neq. intros ->. by vm_compute in Hc.
Qed.

Lemma staging_path_eq (file : FileStorage) :
  staging_path file = py "uploads/" ++ staged_name file.
Proof.
  unfold staging_path, staged_name, os_path_join.
  by rewrite (filename_char_not_slash _ (secure_filename_chars _)).
Qed.

Lemma base_name_chars (filename : pystr) :
  Forall (λ c, filename_char c = true) filename →
  Forall (λ c, filename_char c = true) (base_name_of filename).
Proof.
  intros Hf. unfold base_name_of.
  destruct (Str.rfind Str.DOT filename); [by apply Forall_take | done].
Qed.

Lemma out_filename_not_slash (base ts fmt : pystr) :
  Forall (λ c, filename_char c = true) base →
  Str.startswith1 Str.SLASH (out_filename_of base ts fmt) = false.
Proof.
  unfold out_filename_of. destruct 1 as [|c s Hc _]; [done|].
  cbn [app Str.startswith1]. apply N.eqb_neq. intros ->. by vm_compute in Hc.
Qed.

Lemma artifact_path_eq now req (file : FileStorage) :
  artifact_path now req file = py "outputs/" ++ artifact_name now req file.
Proof.
  unfold artifact_path, os_path_join, artifact_name.
  by rewrite out_filename_not_slash
    by apply base_name_chars, secure_filename_chars.
Qed.

(** The artifact is never written over the staged upload. *)
Lemma artifact_path_not_staging now req file file' :
  artifact_path now req file ≠ staging_path file'.
Proof. by rewrite artifact_path_eq, staging_path_eq. Qed.
End Paths.

(** ** The Output Formatter *)

Lemma endswith1_app (c : N) (s t : pystr) :
  t ≠ [] → Str.endswith1 c (s ++ t) = Str.endswith1 c t.
Proof.
  intros Ht. unfold Str.endswith1. rewrite reverse_app.
  destruct (reverse t) as [|d r] eqn:Hr; [|done].
  apply (f_equal reverse) in Hr. by rewrite reverse_involutive in Hr.
Qed.

Section FormatterFacts.
Context {L : Libraries}.

Lemma artifact_path_regular now req file :
  target_format_of req ≠ [] →
  Str.endswith1 Str.SLASH (target_format_of req) = false →
  Str.endswith1 Str.SLASH (artifact_path now req file) = false.
Proof.
  intros Hne Hfmt. rewrite artifact_path_eq.
  unfold artifact_name, out_filename_of.
  by rewrite !app_assoc, endswith1_app.
Qed.

(** The files left by a request whose artifact [data] was written. *)
Lemma files_after_artifact (now : datetime) (req : request)
    (file : FileStorage) (m : gmap pystr bytes) (stream data : bytes) :
  delete (staging_path file)
    (<[artifact_path now req file := data]>
       (<[staging_path file := stream]> m))
  = <[artifact_path now req file := data]> (delete (staging_path file) m).
Proof.
  rewrite delete_insert_ne by apply not_eq_sym, artifact_path_not_staging.
  by rewrite delete_insert_eq.
Qed.
End FormatterFacts.



Example txt_artifact_non_ascii :
  (process (L := Toy.libraries) Toy.noon
     (Toy.upload "euro.txt" [0xE2; 0x82; 0xAC]%N None) Toy.empty_world)
  = (Json200 [0x20AC%N] (py "/download/euro_20240309_120000.txt")
             (py "euro_20240309_120000.txt"),
     World {[ py "outputs/euro_20240309_120000.txt" := [0xE2; 0x82; 0xAC]%N ]}
           []).
Proof. vm_compute. reflexivity. Qed.

(** An upload whose name fits the staging folder while the longer name of
    its artifact does not: the write of line 104 raises, the view answers
    500 and no artifact is left. *)
Example txt_artifact_name_too_long :
  process (L := Toy.libraries) Toy.noon
    {| request_file := Some {| fs_filename := replicate 246 97%N ++ py ".txt";
                               fs_stream := py "Hello World" |};
       form_format := None; form_lang := None |}
    Toy.empty_world
  = (Json500 OSError, Toy.empty_world).
Proof. vm_compute. reflexivity. Qed.

(** ** CSV rows *)

Section CsvFacts.
Import Str.

Lemma nonblank_cons c l : nonblank (c :: l) = negb (isspace c) || nonblank l.
Proof.
  unfold nonblank. apply eq_true_iff_eq.
  rewrite orb_true_iff, negb_true_iff, !strip_not_blank.
  apply Exists_cons.
Qed.

Lemma split_nonempty sep s : split sep s ≠ [].
Proof.
  destruct s as [|c r]; cbn [split]; [done|].
  destruct (c =? sep)%N; [done|]. by destruct (split sep r).
Qed.

Lemma count_lines_from_split seen s :
  count_lines_from seen s
  = match split LF s with
    | [] => 0
    | l :: ls => (if seen || nonblank l then 1 else 0)
                 + length (List.filter nonblank ls)
    end.
Proof.
  revert seen. induction s as [|c r IH]; intros seen;
    cbn [count_lines_from split].
  - cbn. by rewrite orb_false_r.
  - destruct (c =? LF)%N eqn:Hc.
    + rewrite IH. change (nonblank []) with false. rewrite orb_false_r.
      f_equal. destruct (split LF r) as [|l ls]; [done|].
      cbn [List.filter orb]. by destruct (nonblank l).
    + rewrite IH. pose proof (split_nonempty LF r) as Hne.
      destruct (split LF r) as [|l ls]; [done|].
      by rewrite nonblank_cons, orb_assoc.
Qed.

(** The lines kept for the CSV are as many as the non-blank lines. *)
Lemma length_csv_lines text :
  length (csv_lines text) = count_nonblank_lines text.
Proof.
  unfold csv_lines, count_nonblank_lines. rewrite count_lines_from_split.
  fold nonblank. pose proof (split_nonempty LF text) as Hne.
  destruct (split LF text) as [|l ls]; [done|].
  cbn [List.filter orb]. by destruct (nonblank l).
Qed.

Lemma elem_of_csv_lines text l :
  l ∈ csv_lines text
  ↔ l ∈ split LF text ∧ Exists (λ c, isspace c = false) l.
Proof.
  unfold csv_lines. rewrite !list_elem_of_In, filter_In.
  by rewrite strip_not_blank.
Qed.
End CsvFacts.

Example count_nonblank_lines_example :
  count_nonblank_lines (py "line1" ++ [10; 10; 32; 9; 10]%N ++ py "line2") = 2.
Proof. reflexivity. Qed.

(** ** Reading back what the CSV writer wrote *)

Section CsvRoundTrip.
Import Csv.
Local Open Scope N_scope.

Lemma parse_unquoted (f fld : pystr) (rec : list pystr) (rest : pystr) :
  existsb special f = false →
  parse InField fld rec (f ++ Str.LF :: rest)
  = (rec ++ [fld ++ f]) :: parse StartRecord [] [] rest.
Proof.
  revert fld. induction f as [|c f IH]; intros fld Hf.
  - cbn. by rewrite app_nil_r.
  - cbn [existsb] in Hf. apply orb_false_elim in Hf as [Hc Hf].
    unfold special in Hc.
    apply orb_false_elim in Hc as [Hc Hcr].
    apply orb_false_elim in Hc as [Hc Hlf].
    apply orb_false_elim in Hc as [Hcomma Hq].
    cbn [app parse step]. rewrite Hcomma, Hlf, Hcr.
    rewrite IH by done. by rewrite <- app_assoc.
Qed.

Lemma parse_quoted (f fld : pystr) (rec : list pystr) (rest : pystr) :
  parse InQuoted fld rec
    ((f ≫= λ c, if c =? QUOTE then [QUOTE; QUOTE] else [c])
     ++ QUOTE :: Str.LF :: rest)
  = (rec ++ [fld ++ f]) :: parse StartRecord [] [] rest.
Proof.
  revert fld. induction f as [|c f IH]; intros fld.
  - cbn. by rewrite app_nil_r.
  - cbn [mbind list_bind]. destruct (c =? QUOTE) eqn:Hc.
    + apply N.eqb_eq in Hc as ->. cbn [app parse step].
      change (QUOTE =? QUOTE) with true. cbn [parse step].
      change (QUOTE =? QUOTE) with true. cbv iota.
      rewrite IH. by rewrite <- app_assoc.
    + cbn [app parse step]. rewrite Hc. rewrite IH. by rewrite <- app_assoc.
Qed.

(** A row of one field reads back as that field, whatever it holds. *)
Lemma parse_row (f rest : pystr) :
  parse StartRecord [] [] (row [f] ++ rest)
  = [f] :: parse StartRecord [] [] rest.
Proof.
  unfold row. cbn [length fmap list_fmap Str.join].
  rewrite bool_decide_eq_true_2 by done. rewrite <- app_assoc. cbn [app].
  unfold field. destruct (existsb special f) eqn:Hs; cbn [orb andb].
  - unfold quoted. cbn [app parse step].
    change (start_record QUOTE) with (InQuoted, @nil N, @nil pystr,
                                      @None (list pystr)).
    cbv iota. rewrite <- app_assoc. cbn [app]. by rewrite parse_quoted.
  - destruct f as [|c f]; cbn [Str.truthy negb].
    + by cbn.
    + cbn [existsb] in Hs. apply orb_false_elim in Hs as [Hc Hf].
      unfold special in Hc.
      apply orb_false_elim in Hc as [Hc Hcr].
      apply orb_false_elim in Hc as [Hc Hlf].
      apply orb_false_elim in Hc as [Hcomma Hq].
      cbn [app parse step]. unfold start_record, start_field.
      rewrite Hlf, Hcr, Hq, Hcomma. by rewrite parse_unquoted.
Qed.

Lemma parse_rows (ls : list pystr) (rest : pystr) :
  parse StartRecord [] [] ((((λ l, [l]) <$> ls) ≫= row) ++ rest)
  = ((λ l, [l]) <$> ls) ++ parse StartRecord [] [] rest.
Proof.
  induction ls as [|l ls IH]; [done|].
  cbn [fmap list_fmap mbind list_bind]. rewrite <- app_assoc, parse_row.
  cbn [app]. f_equal. apply IH.
Qed.

(** The file written for a frame of one column reads back as the header
    and the rows of the frame. *)
Lemma read_to_csv (h : pystr) (ls : list pystr) (data : bytes) :
  to_csv {| df_columns := [h]; df_rows := (λ l, [l]) <$> ls |} = Some data →
  read data = Some ([h] :: ((λ l, [l]) <$> ls)).
Proof.
  unfold to_csv, read, text. cbn [df_columns df_rows].
  destruct (Utf8.encode _) as [enc|] eqn:Henc; [|done]. intros [= <-].
  cbn [BOM app decode_sig]. rewrite (decode_encode _ _ Henc). cbn [fmap option_fmap option_map].
  f_equal. rewrite parse_row.
  rewrite <- (app_nil_r (_ ≫= row)), parse_rows. by rewrite app_nil_r.
Qed.
End CsvRoundTrip.

(** C8. For the target format csv, when the request is answered 200 and
    pandas has written the frame as [csv.writer] does, the artifact read
    as a CSV file holds the header row Content and then one data row of
    one cell for each line of the text that holds a character other than
    whitespace, in order: as many data rows as there are such lines, and
    no row for a blank line. *)
Theorem csv_rows_are_nonblank_lines {L : Libraries} (now : datetime)
    (req : request) (w w1 w2 : world) (file : FileStorage)
    (text : pystr) (data : bytes) (preview url name : pystr) :
  request_file req = Some file → fs_filename file ≠ [] →
  write_binary (staging_path file) (fs_stream file) w = (Ok tt, w1) →
  dispatch (staged_name file) (staging_path file) (lang_choice_of req) w1
  = (Ok text, w2) →
  target_format_of req = py "csv" →
  dataframe_to_csv (csv_frame text) = Ok data →
  Csv.to_csv (csv_frame text) = Some data →
  (process now req w).1 = Json200 preview url name →
  ∃ rows,
    files (process now req w).2 !! artifact_path now req file = Some data
    ∧ Csv.read data = Some ([py "Content"] :: rows)
    ∧ length rows = count_nonblank_lines text
    ∧ rows = (λ l, [l]) <$> csv_lines text
    ∧ (∀ row, row ∈ rows ↔
         ∃ l, row = [l] ∧ l ∈ Str.split Str.LF text
              ∧ Exists (λ c, Str.isspace c = false) l)
    ∧ (∀ row, row ∈ rows → ∀ l, l ∈ row → ¬ blank l).
Proof.
  intros Hfile Hname Hsave Hd Hfmt Hcsv Hmodel.
  exists ((λ l, [l]) <$> csv_lines text).
  assert (Hrows : ∀ row, row ∈ (λ l, [l]) <$> csv_lines text ↔
            ∃ l, row = [l] ∧ l ∈ Str.split Str.LF text
                 ∧ Exists (λ c, Str.isspace c = false) l).
  { intros row. rewrite list_elem_of_fmap. setoid_rewrite elem_of_csv_lines.
    split; intros (l & ? & ?); by exists l. }
  revert H. rewrite (process_extracted now req w w1 w2 file text) by done.
  destruct (Str.truthy (Str.strip text)); [|done]. cbv zeta. cbn [fst snd].
  unfold save_artifact. rewrite Hfmt.
  do 3 (rewrite bool_decide_eq_false_2 by done).
  rewrite bool_decide_eq_true_2 by done. cbv zeta.
  fold (csv_frame text). rewrite run_bind, Hcsv. cbn [lift].
  destruct (write_binary _ data w2).1 as [[]|e] eqn:Hw; [|done]. intros _.
  rewrite (write_binary_inv _ _ _ Hw).
  split; [|split; [|split; [|split; [done|split; [done|]]]]].
  - rewrite finally_cleanup_files. cbn [files].
    rewrite (files_after_dispatch _ _ _ _ _ _ _ _ Hsave Hd).
    rewrite files_after_artifact. apply lookup_insert_eq.
  - by apply read_to_csv.
  - by rewrite length_fmap, length_csv_lines.
  - intros row (l & -> & _ & Hl)%Hrows l' ->%list_elem_of_singleton Hb.
    apply strip_not_blank in Hl. apply strip_blank in Hb. congruence.
Qed.

Lemma csv_rows_are_nonblank_lines_witness :
  ∃ rows,
    files (process (L := Toy.libraries) Toy.noon
             (Toy.upload "notes.txt" (py "line1" ++ [10; 10]%N ++ py "line2")
                (Some "csv"%string))
             Toy.empty_world).2
      !! artifact_path (L := Toy.libraries) Toy.noon
           (Toy.upload "notes.txt" (py "line1" ++ [10; 10]%N ++ py "line2")
              (Some "csv"%string))
           (Toy.file_of "notes.txt" (py "line1" ++ [10; 10]%N ++ py "line2"))
    = Some (Csv.BOM ++ py "Content" ++ [10%N] ++ py "line1"
            ++ [10%N] ++ py "line2" ++ [10%N])
    ∧ Csv.read (Csv.BOM ++ py "Content" ++ [10%N] ++ py "line1"
                ++ [10%N] ++ py "line2" ++ [10%N])
      = Some ([py "Content"] :: rows)
    ∧ length rows
      = count_nonblank_lines (py "line1" ++ [10; 10]%N ++ py "line2")
    ∧ rows = (λ l, [l]) <$> csv_lines (py "line1" ++ [10; 10]%N ++ py "line2")
    ∧ (∀ row, row ∈ rows ↔
         ∃ l, row = [l]
              ∧ l ∈ Str.split Str.LF (py "line1" ++ [10; 10]%N ++ py "line2")
              ∧ Exists (λ c, Str.isspace c = false) l)
    ∧ (∀ row, row ∈ rows → ∀ l, l ∈ row → ¬ blank l).
Proof.
  apply (csv_rows_are_nonblank_lines (L := Toy.libraries) Toy.noon
           (Toy.upload "notes.txt" (py "line1" ++ [10; 10]%N ++ py "line2")
              (Some "csv"%string))
           Toy.empty_world
           (toy_staged "notes.txt" (py "line1" ++ [10; 10]%N ++ py "line2")
              Toy.empty_world)
           (toy_extracted "notes.txt"
              (py "line1" ++ [10; 10]%N ++ py "line2") Toy.empty_world)
           (Toy.file_of "notes.txt" (py "line1" ++ [10; 10]%N ++ py "line2"))
           (py "line1" ++ [10; 10]%N ++ py "line2")
           (Csv.BOM ++ py "Content" ++ [10%N] ++ py "line1"
            ++ [10%N] ++ py "line2" ++ [10%N])
           (py "line1" ++ [10; 10]%N ++ py "line2")
           (py "/download/notes_20240309_120000.csv")
           (py "notes_20240309_120000.csv"));
    [reflexivity | discriminate
    | vm_compute; reflexivity | vm_compute; reflexivity
    | reflexivity
    | vm_compute; reflexivity
    | vm_compute; reflexivity
    | vm_compute; reflexivity].
Defined.

Example csv_artifact_with_quotes :
  Csv.read (Csv.BOM ++ py "Content" ++ [10%N]
            ++ [34%N] ++ py "a,b" ++ [34; 10]%N ++ py "c" ++ [10%N])
  = Some [[py "Content"]; [py "a,b"]; [py "c"]].
Proof. reflexivity. Qed.

Example scenario_csv :
  df_rows (csv_frame (py "line1" ++ [10; 10]%N ++ py "line2"))
  = [[py "line1"]; [py "line2"]].
Proof. reflexivity. Qed.

(** ** Artifact names *)

Section Timestamps.
Local Open Scope N_scope.




End Timestamps.



Section Frame.
Context {L : Libraries}.

(** [save_artifact] touches no path but the artifact's. *)
Lemma save_artifact_frame out_path fmt text w (path : pystr) :
  path ≠ out_path →
  files (save_artifact out_path fmt text w).2 !! path = files w !! path.
Proof.
  intros Hne. unfold save_artifact, write_text, write_binary.
  repeat case_bool_decide; try done;
    rewrite ?run_bind; cbn [lift];
    repeat match goal with
           | |- context [match ?x with _ => _ end] => destruct x
           end; cbn [raise lift fst snd files]; try done;
    by rewrite lookup_insert_ne.
Qed.


(** A request changes no file other than its staged upload and its
    artifact. *)
Lemma process_frame now req w file (path : pystr) :
  request_file req = Some file →
  path ≠ staging_path file → path ≠ artifact_path now req file →
  files (process now req w).2 !! path = files w !! path.
Proof.
  intros Hfile Hs Ha. unfold process. rewrite Hfile.
  destruct (negb (Str.truthy (fs_filename file))); [done|].
  fold (staged_name file) (staging_path file)
       (target_format_of req) (lang_choice_of req).
  destruct (write_binary _ _ w) as [[[]|e] w1] eqn:Hsave.
  2:{ pose proof (write_binary_raise (staging_path file) (fs_stream file)
                    w e) as Hw.
      rewrite Hsave in Hw. cbn [fst snd] in Hw. by rewrite Hw. }
  unfold try_body. rewrite run_bind.
  destruct (dispatch _ _ _ w1) as [r w2] eqn:Hd.
  pose proof (files_after_dispatch _ _ _ _ _ _ _ _ Hsave Hd) as Hw2.
  assert (Hbase : files w2 !! path = files w !! path).
  { rewrite Hw2. by apply lookup_insert_ne. }
  assert (Hfin : ∀ w3, files w3 !! path = files w !! path →
            files (finally_cleanup (staging_path file) w3) !! path
            = files w !! path).
  { intros w3 <-. rewrite finally_cleanup_files. by apply lookup_delete_ne. }
  destruct r as [text|e]; [|by apply Hfin].
  destruct (negb (Str.truthy (Str.strip text))); [by apply Hfin|].
  rewrite run_bind, getitem_rsplit1_0. cbn [lift]. rewrite run_bind.
  fold (artifact_name now req file). fold (artifact_path now req file).
  pose proof (save_artifact_frame (artifact_path now req file)
                (target_format_of req) text w2 path Ha) as Hsv.
  destruct (save_artifact _ _ _ w2) as [[[]|e] w3]; cbn [snd] in Hsv;
    apply Hfin; by rewrite Hsv.
Qed.
End Frame.




(** ** The PDF Page Resolver *)

Section PdfResolver.
Context {L : Libraries}.

Lemma has_text_spec content :
  has_text content = true ↔ digitally_authored content.
Proof.
  unfold has_text, digitally_authored. destruct content as [c|].
  - rewrite andb_true_iff, bool_decide_eq_true. split.
    + intros [_ Hlen]. by exists c.
    + intros (c' & [= <-] & Hlen). split; [|done].
      destruct c; [|done]. cbn in Hlen. lia.
  - split; [done | by intros (c & [=] & _)].
Qed.

Lemma run_extract_text p w :
  extract_text p w
  = (page_layer p,
     World (files w) (calls w ++ [CallExtractText (page_number p)])).
Proof. reflexivity. Qed.

Lemma run_extract_ocr img lang o w :
  image_to_string img lang OCR_CONFIG = Ok o →
  extract_ocr img lang w
  = (Ok o, World (files w) (calls w ++ [CallImageToString lang])).
Proof.
  intros Ho. unfold extract_ocr. rewrite run_bind. cbn [log lift].
  fold OCR_CONFIG. by rewrite Ho.
Qed.

(** Rendering one page gives one image. *)
Lemma run_convert_one_page path data n img w :
  files w !! path = Some data →
  pdf_render_page data n = Ok img →
  convert_from_path path n n w
  = (Ok [img], World (files w) (calls w ++ [CallConvertFromPath n n])).
Proof.
  intros Hdata Himg. unfold convert_from_path.
  rewrite run_bind. cbn [log]. rewrite run_bind.
  unfold read_binary. cbn [files]. rewrite Hdata.
  replace (S n - n) with 1 by lia. cbn [seq mapM].
  rewrite run_bind. cbn [lift]. by rewrite Himg.
Qed.

Lemma run_page {B} path data lang p text o cs (k : pystr → M B) w :
  files w !! path = Some data →
  page_outcome data lang p o cs →
  (content ← extract_text p;
   text ←
     (if has_text content
      then mret (text ++ default [] content ++ [Str.LF])
      else
        images ← convert_from_path path (page_number p) (page_number p);
        ocr_images lang images text);
   k text) w
  = k (text ++ o) (World (files w) (calls w ++ cs)).
Proof.
  intros Hdata Ho. rewrite run_bind, run_extract_text.
  destruct Ho as [c Hl Hlen|content img o Hl Hna Himg Hocr]; rewrite Hl;
    rewrite run_bind.
  - by rewrite (proj2 (has_text_spec (Some c))) by (by exists c).
  - destruct (has_text content) eqn:Hh; [by apply has_text_spec in Hh|].
    rewrite run_bind.
    rewrite (run_convert_one_page path data _ img) by done.
    cbn [ocr_images]. rewrite run_bind.
    rewrite (run_extract_ocr _ _ o) by done.
    cbn [files calls]. by rewrite <- !app_assoc.
Qed.

Lemma run_pdf_pages_loop path data lang pages
    (outcomes : list (pystr * list call)) text w :
  files w !! path = Some data →
  Forall2 (λ p o, page_outcome data lang p o.1 o.2) pages outcomes →
  pdf_pages_loop path lang pages text w
  = (Ok (text ++ concat outcomes.*1),
     World (files w) (calls w ++ concat outcomes.*2)).
Proof.
  intros Hdata Hall. revert text w Hdata.
  induction Hall as [|p [o cs] pages outcomes Ho Hall IH]; intros text w Hdata.
  - cbn. by rewrite !app_nil_r; destruct w.
  - cbn [pdf_pages_loop].
    rewrite (run_page path data lang p text o cs) by done.
    rewrite IH by done. cbn [files calls fmap list_fmap concat fst snd].
    by rewrite <- !app_assoc.
Qed.
End PdfResolver.

(** C1. When no collaborator raises, [process_pdf] visits the pages in
    document order and returns the concatenation of what each page adds:
    for a page whose embedded text, trimmed, is longer than 20 characters,
    that text as extracted and a line feed, with no rendering of the page;
    for any other page, also one without a text layer, the text read by
    OCR on the pre-processed rendering of that page and a line feed. *)
Theorem process_pdf_page_order {L : Libraries} (path lang : pystr)
    (w : world) (data : bytes) (layers : list (result (option pystr)))
    (outcomes : list (pystr * list call)) :
  files w !! path = Some data →
  pdf_text_layers data = Ok layers →
  Forall2 (λ p o, page_outcome data lang p o.1 o.2)
          (numbered layers) outcomes →
  process_pdf path lang w
  = (Ok (concat outcomes.*1),
     World (files w) (calls w ++ concat outcomes.*2)).
Proof.
  intros Hdata Hlayers Hall. unfold process_pdf, pdfplumber_pages.
  rewrite !run_bind. unfold read_binary. rewrite Hdata. cbn [lift].
  rewrite Hlayers, run_bind. cbn [lift]. fold (numbered layers).
  unfold mret, M_ret.
  by rewrite (run_pdf_pages_loop path data lang _ outcomes).
Qed.

Lemma process_pdf_page_order_witness :
  process_pdf (L := Toy.libraries) (py "uploads/doc.pdf") (py "eng")
    toy_pdf_world
  = (Ok (concat toy_pdf_outcomes.*1),
     World (files toy_pdf_world)
           (calls toy_pdf_world ++ concat toy_pdf_outcomes.*2)).
Proof.
  apply (process_pdf_page_order (L := Toy.libraries) (py "uploads/doc.pdf")
           (py "eng") toy_pdf_world toy_pdf
           (Toy.layer <$> Str.split Toy.FF toy_pdf) toy_pdf_outcomes).
  - vm_compute. reflexivity.
  - reflexivity.
  - apply List.Forall2_cons;
      [|apply List.Forall2_cons;
         [|apply List.Forall2_cons; [|apply List.Forall2_nil]]];
      cbn [fst snd].
    + apply (outcome_embedded (L := Toy.libraries) toy_pdf (py "eng")
               {| page_number := 1;
                  page_layer :=
                    Toy.layer (py "This page has an embedded text layer.") |}
               (py "This page has an embedded text layer."));
        [reflexivity | vm_compute; lia].
    + apply (outcome_ocr (L := Toy.libraries) toy_pdf (py "eng")
               {| page_number := 2;
                  page_layer := Toy.layer (py "!handwritten words") |}
               None (py "handwritten words") (py "handwritten words"));
        [ reflexivity | intros (c & Hc & _); discriminate Hc
        | reflexivity | reflexivity ].
    + apply (outcome_ocr (L := Toy.libraries) toy_pdf (py "eng")
               {| page_number := 3; page_layer := Toy.layer (py "  p. 3  ") |}
               (Some (py "  p. 3  ")) (py "  p. 3  ") (py "  p. 3  "));
        [ reflexivity
        | intros (c & [= <-] & Hlen); vm_compute in Hlen; lia
        | reflexivity | reflexivity ].
Defined.

Example process_pdf_example :
  process_pdf (L := Toy.libraries) (py "uploads/doc.pdf") (py "eng")
    toy_pdf_world
  = (Ok (py "This page has an embedded text layer." ++ [10%N]
         ++ py "handwritten words" ++ [10%N] ++ py "  p. 3  " ++ [10%N]),
     World (files toy_pdf_world)
       [CallExtractText 1;
        CallExtractText 2; CallConvertFromPath 2 2;
        CallImageToString (py "eng");
        CallExtractText 3; CallConvertFromPath 3 3;
        CallImageToString (py "eng")]).
Proof. vm_compute. reflexivity. Qed.

(** ** The Extraction Dispatcher *)

(** C2, as stated, fails: an upload named [a.exe] whose bytes are not
    UTF-8 makes the dispatcher raise, and the CR LF of an upload named
    [a.txt] does not reach the extracted text verbatim. *)
Lemma plain_text_read_can_fail :
  (Str.lower (unicode_lower (Libraries := Toy.libraries)) (py "exe")
     ∉ EXTRACTOR_EXTENSIONS)
  ∧ dispatch (L := Toy.libraries) (py "a.exe") (py "uploads/a.exe")
      (py "eng")
      (World {[ py "uploads/a.exe" := [0x4D; 0x5A; 0x90; 0x00]%N ]} [])
    = (Raise UnicodeDecodeError,
       World {[ py "uploads/a.exe" := [0x4D; 0x5A; 0x90; 0x00]%N ]} [])
  ∧ Utf8.decode (py "a" ++ [13; 10]%N ++ py "b")
    = Some (py "a" ++ [13; 10]%N ++ py "b")
  ∧ dispatch (L := Toy.libraries) (py "a.txt") (py "uploads/a.txt")
      (py "eng")
      (World {[ py "uploads/a.txt" := py "a" ++ [13; 10]%N ++ py "b" ]} [])
    = (Ok (py "a" ++ [10%N] ++ py "b"),
       World {[ py "uploads/a.txt" := py "a" ++ [13; 10]%N ++ py "b" ]} []).
Proof.
  split; [|split; [|split]]; try (vm_compute; reflexivity).
  rewrite list_elem_of_In. vm_compute. intuition discriminate.
Qed.

(** A staged name without a dot has no index 1 at line 79. *)
Example dispatch_without_dot :
  dispatch (L := Toy.libraries) (py "README") (py "uploads/README")
    (py "eng") (World {[ py "uploads/README" := py "hello" ]} [])
  = (Raise IndexError, World {[ py "uploads/README" := py "hello" ]} []).
Proof. vm_compute. reflexivity. Qed.

(** C2, amended. For a staged name that holds a dot and whose extension,
    lower-cased, is none of pdf, jpg, jpeg, png and docx, the dispatcher
    does not turn the file away: it decodes the staged bytes as strict
    UTF-8 and gives the decoded text, its CR LF and CR read as LF, as the
    extracted text; bytes that are not UTF-8 make it raise
    [UnicodeDecodeError]. *)
Theorem plain_text_fallback {L : Libraries} (filename stem ext : pystr)
    (input_path lang : pystr) (w : world) (data : bytes) :
  filename = stem ++ Str.DOT :: ext → Str.DOT ∉ ext →
  Str.lower unicode_lower ext ∉ EXTRACTOR_EXTENSIONS →
  files w !! input_path = Some data →
  dispatch filename input_path lang w
  = (match Utf8.decode data with
     | Some s => Ok (Utf8.universal_newlines s)
     | None => Raise UnicodeDecodeError
     end, w).
Proof.
  intros -> Hext Hnot Hdata. unfold dispatch.
  rewrite rsplit1_app, run_bind by done. cbn [getitem lookup list_lookup lift].
  cbv zeta. unfold EXTRACTOR_EXTENSIONS in Hnot.
  rewrite !not_elem_of_cons in Hnot.
  destruct Hnot as (Hpdf & Hjpg & Hjpeg & Hpng & Hdocx & _).
  rewrite (bool_decide_eq_false_2 (_ = py "pdf")) by done.
  rewrite (bool_decide_eq_false_2 (_ ∈ _))
    by (rewrite !not_elem_of_cons; auto using not_elem_of_nil).
  rewrite (bool_decide_eq_false_2 (_ = py "docx")) by done.
  unfold read_text. rewrite run_bind. unfold read_binary. rewrite Hdata.
  by destruct (Utf8.decode data).
Qed.

Lemma plain_text_fallback_witness :
  dispatch (L := Toy.libraries) (py "a.exe") (py "uploads/a.exe") (py "eng")
    (World {[ py "uploads/a.exe" := py "MZ" ]} [])
  = (match Utf8.decode (py "MZ") with
     | Some s => Ok (Utf8.universal_newlines s)
     | None => Raise UnicodeDecodeError
     end, World {[ py "uploads/a.exe" := py "MZ" ]} []).
Proof.
  apply (plain_text_fallback (L := Toy.libraries) (py "a.exe") (py "a")
           (py "exe") (py "uploads/a.exe") (py "eng")
           (World {[ py "uploads/a.exe" := py "MZ" ]} []) (py "MZ"));
    [ reflexivity
    | rewrite list_elem_of_In; vm_compute; intuition discriminate
    | rewrite list_elem_of_In; vm_compute; intuition discriminate
    | vm_compute; reflexivity ].
Defined.

(** ** Texts read from plain-text uploads *)

Section DecodedText.
Local Open Scope N_scope.
Import Utf8.

Lemma scalar_intro c :
  c < 0x110000 → (c < 0xD800 ∨ 0xE000 ≤ c) → scalar c = true.
Proof.
  intros Hc Hs. unfold scalar, surrogate.
  apply andb_true_intro. split; [by apply N.ltb_lt|].
  apply negb_true_iff, andb_false_iff.
  destruct Hs; [left; by apply N.leb_gt | right; by apply N.ltb_ge].
Qed.

(** The strict decoder yields Unicode scalar values only. *)
Lemma decode_scalar bs s :
  decode bs = Some s → Forall (λ c, scalar c = true) s.
Proof.
  remember (length bs) as n eqn:Hn. revert bs s Hn.
  induction n as [n IH] using lt_wf_ind. intros bs s ->.
  assert (Hrec : ∀ v r s', (length r < length bs)%nat →
            scalar v = true → cons v <$> decode r = Some s' →
            Forall (λ c, scalar c = true) s').
  { intros v r s' Hlen Hv (t & Hr & ->)%fmap_Some.
    constructor; [done|]. by apply (IH (length r) Hlen r). }
  destruct bs as [|b0 r0]; cbn [decode]; [by intros [= <-]|].
  unfold cont, surrogate.
  repeat case_match; try done; subst; bool_to_prop;
    apply Hrec; cbn [length]; try lia; apply scalar_intro; lia.
Qed.

Lemma universal_newlines_scalar s :
  Forall (λ c, scalar c = true) s →
  Forall (λ c, scalar c = true) (universal_newlines s).
Proof.
  remember (length s) as n eqn:Hn. revert s Hn.
  induction n as [n IH] using lt_wf_ind. intros s -> Hs.
  destruct Hs as [|c r Hc Hr]; cbn [universal_newlines]; [done|].
  destruct (c =? Str.CR).
  - constructor; [done|]. destruct Hr as [|d r' Hd Hr']; [done|].
    destruct (d =? Str.LF).
    + apply (IH (length r')); [cbn; lia | done | done].
    + apply (IH (length (d :: r'))); [cbn; lia | done | by constructor].
  - constructor; [done|]. apply (IH (length r)); [cbn; lia | done | done].
Qed.
End DecodedText.

(** The text of a plain-text upload always has a UTF-8 form. *)
Lemma read_text_scalar (path : pystr) (w w' : world) (text : pystr) :
  read_text path w = (Ok text, w') →
  Forall (λ c, Utf8.scalar c = true) text.
Proof.
  unfold read_text. rewrite run_bind. unfold read_binary.
  destruct (files w !! path) as [data|]; [|done].
  destruct (Utf8.decode data) as [s|] eqn:Hs; [|done].
  intros [= <- _]. by apply universal_newlines_scalar, (decode_scalar data).
Qed.

(** ** End-to-end scenarios *)

Example scenario_docx_md :
  process (L := Toy.libraries) Toy.noon
    (Toy.upload "letter.docx" (py "A" ++ [10; 10]%N ++ py "B")
       (Some "md"%string))
    Toy.empty_world
  = (Json200 (py "A" ++ [10; 10]%N ++ py "B")
       (py "/download/letter_20240309_120000.md")
       (py "letter_20240309_120000.md"),
     World {[ py "outputs/letter_20240309_120000.md"
              := py "# OCR Result" ++ [10; 10]%N ++ py "A" ++ [10; 10]%N
                 ++ py "B" ]} []).
Proof. vm_compute. reflexivity. Qed.

Example scenario_pdf_upload :
  (process (L := Toy.libraries) Toy.noon
     (Toy.upload "doc.pdf" toy_pdf None) Toy.empty_world).1
  = Json200 (py "This page has an embedded text layer." ++ [10%N]
             ++ py "handwritten words" ++ [10%N] ++ py "  p. 3  " ++ [10%N])
      (py "/download/doc_20240309_120000.txt")
      (py "doc_20240309_120000.txt").
Proof. vm_compute. reflexivity. Qed.

Example scenario_empty_sanitized_name :
  process (L := Toy.libraries) Toy.noon
    (Toy.upload "..." (py "data") None) Toy.empty_world
  = (Unhandled IsADirectoryError, Toy.empty_world).
Proof. vm_compute. reflexivity. Qed.

(** * Further properties *)

(** ** The answers of the view *)

(** X1. A 200 answer carries as preview the first 1500 characters of the
    extracted text, the whole text when it is not longer, and as download
    address [/download/] followed by the artifact's name. *)
Theorem success_response_shape {L : Libraries} (now : datetime)
    (req : request) (w : world) (preview url name : pystr) :
  (process now req w).1 = Json200 preview url name →
  ∃ file text w1 w2,
    request_file req = Some file
    ∧ write_binary (staging_path file) (fs_stream file) w = (Ok tt, w1)
    ∧ dispatch (staged_name file) (staging_path file) (lang_choice_of req) w1
      = (Ok text, w2)
    ∧ preview = take 1500 text
    ∧ length preview ≤ 1500
    ∧ (length text ≤ 1500 → preview = text)
    ∧ url = py "/download/" ++ name
    ∧ name = artifact_name now req file.
Proof.
  intros (file & text & w1 & w2 & Hfile & _ & Hsave & Hd & _ & _
          & -> & -> & ->)%process_success_inv.
  exists file, text, w1, w2. repeat split; try done.
  - rewrite length_take. lia.
  - intros Hlen. by apply take_ge.
Qed.

Lemma success_response_shape_witness :
  ∃ file text w1 w2,
    request_file (Toy.upload "hello.txt" (py "Hello World") None) = Some file
    ∧ write_binary (staging_path (L := Toy.libraries) file) (fs_stream file)
        Toy.empty_world = (Ok tt, w1)
    ∧ dispatch (L := Toy.libraries) (staged_name (L := Toy.libraries) file)
        (staging_path (L := Toy.libraries) file)
        (lang_choice_of (Toy.upload "hello.txt" (py "Hello World") None)) w1
      = (Ok text, w2)
    ∧ py "Hello World" = take 1500 text
    ∧ length (py "Hello World") ≤ 1500
    ∧ (length text ≤ 1500 → py "Hello World" = text)
    ∧ py "/download/hello_20240309_120000.txt"
      = py "/download/" ++ py "hello_20240309_120000.txt"
    ∧ py "hello_20240309_120000.txt"
      = artifact_name (L := Toy.libraries) Toy.noon
          (Toy.upload "hello.txt" (py "Hello World") None) file.
Proof.
  apply (success_response_shape (L := Toy.libraries) Toy.noon
           (Toy.upload "hello.txt" (py "Hello World") None) Toy.empty_world).
  vm_compute. reflexivity.
Defined.

(** X2. The view answers 400 in three cases only, each with its own
    message: no file part, an empty filename, an extracted text that is
    blank. *)
Theorem bad_request_cases {L : Libraries} (now : datetime) (req : request)
    (w : world) (msg : pystr) :
  (process now req w).1 = Json400 msg →
  (request_file req = None ∧ msg = NO_FILE_PART)
  ∨ (∃ file, request_file req = Some file ∧ fs_filename file = []
             ∧ msg = NO_SELECTED_FILE)
  ∨ (∃ file text w1 w2,
       request_file req = Some file ∧ fs_filename file ≠ []
       ∧ write_binary (staging_path file) (fs_stream file) w = (Ok tt, w1)
       ∧ dispatch (staged_name file) (staging_path file)
           (lang_choice_of req) w1 = (Ok text, w2)
       ∧ blank text ∧ msg = NO_TEXT).
Proof.
  intros Hp. destruct (request_file req) as [file|] eqn:Hfile.
  2:{ left. unfold process in Hp. rewrite Hfile in Hp.
      by injection Hp as <-. }
  right. destruct (fs_filename file) as [|c cs] eqn:Hname.
  { left. exists file. unfold process in Hp. rewrite Hfile, Hname in Hp.
    by injection Hp as <-. }
  right. assert (Hne : fs_filename file ≠ []) by by rewrite Hname.
  destruct (write_binary (staging_path file) (fs_stream file) w)
    as [[[]|e] w1] eqn:Hsave.
  2:{ unfold process in Hp. rewrite Hfile, Hname in Hp.
      cbn [Str.truthy negb] in Hp. rewrite <- Hname in Hp.
      fold (staged_name file) in Hp. fold (staging_path file) in Hp.
      by rewrite Hsave in Hp. }
  destruct (dispatch (staged_name file) (staging_path file)
              (lang_choice_of req) w1) as [[text|e] w2] eqn:Hd.
  2:{ rewrite (process_staged now req w file w1) in Hp by done.
      unfold try_body in Hp. by rewrite run_bind, Hd in Hp. }
  rewrite (process_extracted now req w w1 w2 file text) in Hp by done.
  destruct (Str.truthy (Str.strip text)) eqn:Ht.
  { cbv zeta in Hp. cbn [fst] in Hp.
    by destruct (save_artifact _ _ _ w2).1 as [[]|e']. }
  injection Hp as <-. exists file, text, w1, w2.
  repeat split; try done. by apply strip_blank.
Qed.

Lemma bad_request_cases_witness :
  (request_file (Toy.upload "blank.txt" (py "  ") None) = None
   ∧ NO_TEXT = NO_FILE_PART)
  ∨ (∃ file, request_file (Toy.upload "blank.txt" (py "  ") None) = Some file
             ∧ fs_filename file = [] ∧ NO_TEXT = NO_SELECTED_FILE)
  ∨ (∃ file text w1 w2,
       request_file (Toy.upload "blank.txt" (py "  ") None) = Some file
       ∧ fs_filename file ≠ []
       ∧ write_binary (staging_path (L := Toy.libraries) file)
           (fs_stream file) Toy.empty_world = (Ok tt, w1)
       ∧ dispatch (L := Toy.libraries)
           (staged_name (L := Toy.libraries) file)
           (staging_path (L := Toy.libraries) file)
           (lang_choice_of (Toy.upload "blank.txt" (py "  ") None)) w1
         = (Ok text, w2)
       ∧ blank text ∧ NO_TEXT = NO_TEXT).
Proof.
  apply (bad_request_cases (L := Toy.libraries) Toy.noon
           (Toy.upload "blank.txt" (py "  ") None) Toy.empty_world).
  vm_compute. reflexivity.
Defined.

(** X3. When the extractor raises, the view answers 500 with that
    exception, and the files are those before the request without the
    staged upload: no artifact is written and no partial text is kept. *)
Theorem extraction_failure_is_500 {L : Libraries} (now : datetime)
    (req : request) (w w1 w2 : world) (file : FileStorage) (e : exn) :
  request_file req = Some file → fs_filename file ≠ [] →
  write_binary (staging_path file) (fs_stream file) w = (Ok tt, w1) →
  dispatch (staged_name file) (staging_path file) (lang_choice_of req) w1
  = (Raise e, w2) →
  process now req w
  = (Json500 e, World (delete (staging_path file) (files w)) (calls w2)).
Proof.
  intros Hfile Hname Hsave Hd.
  rewrite (process_staged now req w file w1) by done.
  unfold try_body. rewrite run_bind, Hd. cbn [fst snd response_of].
  f_equal. pose proof (finally_cleanup_files (staging_path file) w2) as Hf.
  rewrite (files_after_dispatch _ _ _ _ _ _ _ _ Hsave Hd) in Hf.
  rewrite delete_insert_eq in Hf.
  unfold finally_cleanup, os_remove in *.
  destruct (os_path_exists _ w2); destruct w2; cbn in *; by rewrite Hf.
Qed.

Lemma extraction_failure_is_500_witness :
  process (L := Toy.libraries) Toy.noon
    (Toy.upload "bad.txt" [0xFF%N] None) Toy.empty_world
  = (Json500 UnicodeDecodeError,
     World (delete (staging_path (L := Toy.libraries)
                      (Toy.file_of "bad.txt" [0xFF%N]))
                   (files Toy.empty_world))
           (calls (toy_extracted "bad.txt" [0xFF%N] Toy.empty_world))).
Proof.
  apply (extraction_failure_is_500 (L := Toy.libraries) Toy.noon
           (Toy.upload "bad.txt" [0xFF%N] None) Toy.empty_world
           (toy_staged "bad.txt" [0xFF%N] Toy.empty_world)
           (toy_extracted "bad.txt" [0xFF%N] Toy.empty_world)
           (Toy.file_of "bad.txt" [0xFF%N]) UnicodeDecodeError);
    [ reflexivity | discriminate
    | vm_compute; reflexivity | vm_compute; reflexivity ].
Defined.

(** X4. When the sanitized name of the upload is empty the save is made
    at the path of the upload directory itself and raises before the
    [try]: the exception leaves the view and nothing is staged. *)
Theorem empty_staged_name_escapes {L : Libraries} (now : datetime)
    (req : request) (w : world) (file : FileStorage) :
  request_file req = Some file → fs_filename file ≠ [] →
  staged_name file = [] →
  process now req w = (Unhandled IsADirectoryError, w).
Proof.
  intros Hfile Hname Hstaged. unfold process. rewrite Hfile.
  destruct (fs_filename file) eqn:Hf; [done|]. cbn [Str.truthy negb].
  rewrite <- Hf. fold (staged_name file). by rewrite Hstaged.
Qed.

Lemma empty_staged_name_escapes_witness :
  process (L := Toy.libraries) Toy.noon
    (Toy.upload "._." (py "data") None) Toy.empty_world
  = (Unhandled IsADirectoryError, Toy.empty_world).
Proof.
  apply (empty_staged_name_escapes (L := Toy.libraries) Toy.noon
           (Toy.upload "._." (py "data") None) Toy.empty_world
           (Toy.file_of "._." (py "data")));
    [ reflexivity | discriminate | vm_compute; reflexivity ].
Defined.

(** ** Artifacts of the other formats, and their paths *)

Lemma encode_app (a b : pystr) (da db : bytes) :
  Utf8.encode a = Some da → Utf8.encode b = Some db →
  Utf8.encode (a ++ b) = Some (da ++ db).
Proof.
  revert da. induction a as [|c a IH]; intros da; cbn [Utf8.encode app].
  - by intros [= <-].
  - destruct (Utf8.encode_cp c) as [bc|]; [|done].
    destruct (Utf8.encode a) as [ba|]; [|done]. intros [= <-] Hb.
    by rewrite (IH ba eq_refl Hb), <- app_assoc.
Qed.

Lemma encode_app_inv (a b : pystr) (d : bytes) :
  Utf8.encode (a ++ b) = Some d →
  ∃ da db, Utf8.encode a = Some da ∧ Utf8.encode b = Some db ∧ d = da ++ db.
Proof.
  revert d. induction a as [|c a IH]; intros d; cbn [Utf8.encode app].
  - intros Hb. by exists [], d.
  - destruct (Utf8.encode_cp c) as [bc|]; [|done].
    destruct (Utf8.encode (a ++ b)) as [bs|]; [|done]. intros [= <-].
    destruct (IH bs eq_refl) as (da & db & -> & Hb & ->).
    exists (bc ++ da), db. by rewrite app_assoc.
Qed.

Lemma os_path_join_nil (path : pystr) : os_path_join [] path = path.
Proof. unfold os_path_join. by destruct (Str.startswith1 _ _). Qed.

Section FurtherFormats.
Context {L : Libraries}.

(** The world left by [finally] when only the staged upload was added. *)
Lemma finally_cleanup_staged (path : pystr) (data : bytes)
    (m : gmap pystr bytes) (w2 : world) :
  files w2 = <[path := data]> m →
  finally_cleanup path w2 = World (delete path m) (calls w2).
Proof.
  intros Hf. unfold finally_cleanup, os_path_exists, os_remove.
  rewrite Hf, lookup_insert_eq.
  rewrite bool_decide_eq_true_2 by by eexists.
  by rewrite delete_insert_eq.
Qed.

(** A successful [save_artifact] for a recognised format leaves a file at
    the artifact's path. *)
Lemma save_artifact_written out_path fmt text w :
  recognized_format fmt →
  (save_artifact out_path fmt text w).1 = Ok tt →
  is_Some (files (save_artifact out_path fmt text w).2 !! out_path).
Proof.
  unfold recognized_format. rewrite !elem_of_cons, elem_of_nil.
  unfold save_artifact, write_text, write_binary.
  intros [->|[->|[->|[->|[]]]]];
    repeat (first [ rewrite bool_decide_eq_true_2 by done
                  | rewrite bool_decide_eq_false_2 by done ]);
    rewrite ?run_bind; cbn [lift];
    repeat match goal with
           | |- context [match ?x with _ => _ end] => destruct x
           end; cbn [raise lift fst snd files]; try done;
    intros _; rewrite lookup_insert_eq; by eexists.
Qed.

Lemma filename_chars_no_slash (s : pystr) :
  Forall (λ c, filename_char c = true) s → Str.SLASH ∉ s.
Proof.
  intros Hs Hin. rewrite Forall_forall in Hs. by apply Hs in Hin.
Qed.

Lemma strftime_no_slash d : Str.SLASH ∉ strftime d.
Proof.
  unfold strftime, pad4, pad2, digit, Str.SLASH. cbn [app].
  change (py "_") with [95%N]. cbn [app].
  rewrite !not_elem_of_cons. repeat split; try lia. apply not_elem_of_nil.
Qed.

Lemma recognized_format_no_slash (fmt : pystr) :
  recognized_format fmt → Str.SLASH ∉ fmt.
Proof.
  unfold recognized_format. rewrite !elem_of_cons, elem_of_nil.
  intros [->|[->|[->|[->|[]]]]]; rewrite list_elem_of_In; vm_compute;
    intuition discriminate.
Qed.

Lemma recognized_format_regular (fmt : pystr) :
  recognized_format fmt → fmt ≠ [] ∧ Str.endswith1 Str.SLASH fmt = false.
Proof.
  unfold recognized_format. rewrite !elem_of_cons, elem_of_nil.
  by intros [->|[->|[->|[->|[]]]]].
Qed.
End FurtherFormats.

(** X5. For the target format md, whenever the request is answered 200
    the artifact is the fixed heading line and a blank line followed by
    the UTF-8 encoding of the extracted text, and it decodes to the
    heading followed by the text. *)
Theorem md_artifact_is_headed_text {L : Libraries} (now : datetime)
    (req : request) (w w1 w2 : world) (file : FileStorage)
    (text preview url name : pystr) :
  request_file req = Some file → fs_filename file ≠ [] →
  write_binary (staging_path file) (fs_stream file) w = (Ok tt, w1) →
  dispatch (staged_name file) (staging_path file) (lang_choice_of req) w1
  = (Ok text, w2) →
  target_format_of req = py "md" →
  (process now req w).1 = Json200 preview url name →
  ∃ data,
    Utf8.encode text = Some data
    ∧ files (process now req w).2 !! artifact_path now req file
      = Some (MD_HEADING ++ data)
    ∧ Utf8.decode (MD_HEADING ++ data) = Some (MD_HEADING ++ text).
Proof.
  intros Hfile Hname Hsave Hd Hfmt.
  rewrite (process_extracted now req w w1 w2 file text) by done.
  destruct (Str.truthy (Str.strip text)); [|done]. cbv zeta. cbn [fst snd].
  unfold save_artifact. rewrite Hfmt.
  rewrite (bool_decide_eq_false_2 (py "md" = py "txt")) by done.
  rewrite bool_decide_eq_true_2 by done.
  replace (py "# OCR Result" ++ [Str.LF; Str.LF] ++ text)
    with (MD_HEADING ++ text) by (unfold MD_HEADING; by rewrite <- app_assoc).
  destruct (write_text _ (MD_HEADING ++ text) w2).1 as [[]|e] eqn:Hw; [|done].
  intros _. apply write_text_inv in Hw as (whole & Hwhole & ->).
  pose proof (decode_encode _ _ Hwhole) as Hdec.
  apply encode_app_inv in Hwhole as (dh & data & Hh & Hdata & ->).
  injection Hh as <-. exists data.
  split; [done|]. split; [|done].
  rewrite finally_cleanup_files. cbn [files].
  rewrite (files_after_dispatch _ _ _ _ _ _ _ _ Hsave Hd).
  rewrite files_after_artifact. apply lookup_insert_eq.
Qed.

Lemma md_artifact_is_headed_text_witness :
  ∃ data,
    Utf8.encode (py "Hello World") = Some data
    ∧ files (process (L := Toy.libraries) Toy.noon
               (Toy.upload "hello.txt" (py "Hello World") (Some "md"%string))
               Toy.empty_world).2
        !! artifact_path (L := Toy.libraries) Toy.noon
             (Toy.upload "hello.txt" (py "Hello World") (Some "md"%string))
             (Toy.file_of "hello.txt" (py "Hello World"))
      = Some (MD_HEADING ++ data)
    ∧ Utf8.decode (MD_HEADING ++ data)
      = Some (MD_HEADING ++ py "Hello World").
Proof.
  apply (md_artifact_is_headed_text (L := Toy.libraries) Toy.noon
           (Toy.upload "hello.txt" (py "Hello World") (Some "md"%string))
           Toy.empty_world
           (toy_staged "hello.txt" (py "Hello World") Toy.empty_world)
           (toy_extracted "hello.txt" (py "Hello World") Toy.empty_world)
           (Toy.file_of "hello.txt" (py "Hello World")) (py "Hello World")
           (py "Hello World") (py "/download/hello_20240309_120000.md")
           (py "hello_20240309_120000.md"));
    [reflexivity | discriminate
    | vm_compute; reflexivity | vm_compute; reflexivity
    | reflexivity
    | vm_compute; reflexivity].
Defined.

(** X6. For the target format docx, a request answered 200 has left as
    artifact the container that python-docx builds for one paragraph
    holding the whole text, and its preview is the first 1500 characters
    of the text; when the library refuses the text the view answers 500
    with its exception and writes no artifact. *)
Theorem docx_artifact_is_one_paragraph {L : Libraries} (now : datetime)
    (req : request) (w w1 w2 : world) (file : FileStorage) (text : pystr) :
  request_file req = Some file → fs_filename file ≠ [] →
  write_binary (staging_path file) (fs_stream file) w = (Ok tt, w1) →
  dispatch (staged_name file) (staging_path file) (lang_choice_of req) w1
  = (Ok text, w2) →
  Exists (λ c, Str.isspace c = false) text →
  target_format_of req = py "docx" →
  (∀ preview url name,
     (process now req w).1 = Json200 preview url name →
     ∃ data,
       docx_single_paragraph text = Ok data
       ∧ process now req w
         = (Json200 (take 1500 text)
              (py "/download/" ++ artifact_name now req file)
              (artifact_name now req file),
            World (<[artifact_path now req file := data]>
                     (delete (staging_path file) (files w)))
                  (calls w2)))
  ∧ (∀ e, docx_single_paragraph text = Raise e →
       process now req w
       = (Json500 e,
          World (delete (staging_path file) (files w)) (calls w2))).
Proof.
  intros Hfile Hname Hsave Hd Ht%strip_not_blank Hfmt.
  pose proof (files_after_dispatch _ _ _ _ _ _ _ _ Hsave Hd) as Hw2.
  rewrite (process_extracted now req w w1 w2 file text) by done.
  rewrite Ht. cbv zeta.
  unfold save_artifact. rewrite Hfmt.
  rewrite (bool_decide_eq_false_2 (py "docx" = py "txt")) by done.
  rewrite (bool_decide_eq_false_2 (py "docx" = py "md")) by done.
  rewrite bool_decide_eq_true_2 by done. rewrite run_bind. cbn [lift].
  destruct (docx_single_paragraph text) as [data|e]; cbn [fst snd];
    (split; [|try done]).
  - intros preview url name.
    destruct (write_binary _ data w2).1 as [[]|e] eqn:Hw; [|done]. intros _.
    exists data. split; [done|]. rewrite (write_binary_inv _ _ _ Hw).
    f_equal. unfold finally_cleanup, os_path_exists, os_remove.
    cbn [files calls]. rewrite Hw2.
    rewrite lookup_insert_ne by apply artifact_path_not_staging.
    rewrite lookup_insert_eq, bool_decide_eq_true_2 by by eexists.
    by rewrite files_after_artifact.
  - done.
  - intros e' [= <-]. f_equal. by eapply finally_cleanup_staged.
Qed.

Lemma docx_artifact_is_one_paragraph_witness :
  ∃ data,
    docx_single_paragraph (Libraries := Toy.libraries) (py "Hello World")
    = Ok data
    ∧ process (L := Toy.libraries) Toy.noon
        (Toy.upload "hello.txt" (py "Hello World") (Some "docx"%string))
        Toy.empty_world
      = (Json200 (take 1500 (py "Hello World"))
           (py "/download/"
            ++ artifact_name (L := Toy.libraries) Toy.noon
                 (Toy.upload "hello.txt" (py "Hello World")
                    (Some "docx"%string))
                 (Toy.file_of "hello.txt" (py "Hello World")))
           (artifact_name (L := Toy.libraries) Toy.noon
              (Toy.upload "hello.txt" (py "Hello World")
                 (Some "docx"%string))
              (Toy.file_of "hello.txt" (py "Hello World"))),
         World (<[artifact_path (L := Toy.libraries) Toy.noon
                    (Toy.upload "hello.txt" (py "Hello World")
                       (Some "docx"%string))
                    (Toy.file_of "hello.txt" (py "Hello World")) := data]>
                  (delete (staging_path (L := Toy.libraries)
                             (Toy.file_of "hello.txt" (py "Hello World")))
                          (files Toy.empty_world)))
               (calls (toy_extracted "hello.txt" (py "Hello World")
                         Toy.empty_world))).
Proof.
  apply (proj1 (docx_artifact_is_one_paragraph (L := Toy.libraries) Toy.noon
                  (Toy.upload "hello.txt" (py "Hello World")
                     (Some "docx"%string))
                  Toy.empty_world
                  (toy_staged "hello.txt" (py "Hello World") Toy.empty_world)
                  (toy_extracted "hello.txt" (py "Hello World")
                     Toy.empty_world)
                  (Toy.file_of "hello.txt" (py "Hello World"))
                  (py "Hello World")
                  eq_refl
                  ltac:(discriminate)
                  ltac:(vm_compute; reflexivity)
                  ltac:(vm_compute; reflexivity)
                  ltac:(apply Exists_cons_hd; reflexivity)
                  eq_refl)
           (py "Hello World") (py "/download/hello_20240309_120000.docx")
           (py "hello_20240309_120000.docx")).
  vm_compute. reflexivity.
Defined.

Example docx_refuses_form_feed :
  process (L := Strict.libraries) Toy.noon
    (Toy.upload "scan.txt" (py "Hello" ++ [12%N]) (Some "docx"%string))
    Toy.empty_world
  = (Json500 (LibraryError (py "All strings must be XML compatible")),
     Toy.empty_world).
Proof. vm_compute. reflexivity. Qed.

(** X7. The staged upload lies directly in [uploads] and, for a
    recognised target format, the artifact directly in [outputs]: neither
    name holds a slash, whatever the client sent as filename. *)
Theorem paths_stay_in_their_directories {L : Libraries} (now : datetime)
    (req : request) (file : FileStorage) :
  staging_path file = py "uploads/" ++ staged_name file
  ∧ (Str.SLASH ∉ staged_name file)
  ∧ artifact_path now req file = py "outputs/" ++ artifact_name now req file
  ∧ (recognized_format (target_format_of req) →
     Str.SLASH ∉ artifact_name now req file).
Proof.
  split; [apply staging_path_eq|].
  split; [apply filename_chars_no_slash, secure_filename_chars|].
  split; [apply artifact_path_eq|].
  intros Hfmt. unfold artifact_name, out_filename_of.
  rewrite !not_elem_of_app. repeat split.
  - apply filename_chars_no_slash, base_name_chars, secure_filename_chars.
  - rewrite list_elem_of_In. vm_compute. intuition discriminate.
  - apply strftime_no_slash.
  - rewrite list_elem_of_In. vm_compute. intuition discriminate.
  - by apply recognized_format_no_slash.
Qed.

(** X8. A request changes no file other than its staged upload and its
    artifact: every other path holds after the request what it held
    before, whatever the outcome. *)
Theorem process_touches_only_its_paths {L : Libraries} (now : datetime)
    (req : request) (w : world) (path : pystr) :
  (∀ file, request_file req = Some file →
     path ≠ staging_path file ∧ path ≠ artifact_path now req file) →
  files (process now req w).2 !! path = files w !! path.
Proof.
  intros Hpath. destruct (request_file req) as [file|] eqn:Hfile.
  - destruct (Hpath file eq_refl) as [Hs Ha]. by apply (process_frame _ _ _ file).
  - unfold process. by rewrite Hfile.
Qed.

Lemma process_touches_only_its_paths_witness :
  files (process (L := Toy.libraries) Toy.noon
           (Toy.upload "hello.txt" (py "Hello World") None)
           (World {[ py "outputs/old.txt" := py "old" ]} [])).2
    !! py "outputs/old.txt"
  = files (World {[ py "outputs/old.txt" := py "old" ]} [])
      !! py "outputs/old.txt".
Proof.
  apply (process_touches_only_its_paths (L := Toy.libraries) Toy.noon
           (Toy.upload "hello.txt" (py "Hello World") None)
           (World {[ py "outputs/old.txt" := py "old" ]} [])
           (py "outputs/old.txt")).
  intros file [= <-]. split; vm_compute; discriminate.
Defined.

(** X9. After a 200 answer for a recognised target format, [download] of
    the name given in the answer returns the artifact, when the server
    runs in the directory of the application. *)
Theorem download_after_success {L : Libraries} (now : datetime)
    (req : request) (w : world) (preview url name : pystr) :
  recognized_format (target_format_of req) →
  (process now req w).1 = Json200 preview url name →
  ∃ file data,
    request_file req = Some file
    ∧ files (process now req w).2 !! artifact_path now req file = Some data
    ∧ download [] name (process now req w).2
      = (Ok data, (process now req w).2).
Proof.
  intros Hfmt Hp.
  pose proof Hp as (file & text & w1 & w2 & Hfile & Hname & Hsave & Hd & Ht
                    & Hs & _ & _ & ->)%process_success_inv.
  pose proof (save_artifact_written _ _ text w2 Hfmt Hs) as [data Hdata].
  exists file, data. split; [done|]. unfold download, send_file, read_binary.
  rewrite os_path_join_nil.
  fold (artifact_path now req file).
  assert (Hfin : files (process now req w).2 !! artifact_path now req file
                 = Some data).
  { rewrite (process_extracted now req w w1 w2 file text) by done.
    rewrite Ht. cbv zeta. cbn [snd]. rewrite finally_cleanup_files.
    by rewrite lookup_delete_ne
      by apply not_eq_sym, artifact_path_not_staging. }
  by rewrite Hfin.
Qed.

Lemma download_after_success_witness :
  ∃ file data,
    request_file (Toy.upload "hello.txt" (py "Hello World") None) = Some file
    ∧ files (process (L := Toy.libraries) Toy.noon
               (Toy.upload "hello.txt" (py "Hello World") None)
               Toy.empty_world).2
        !! artifact_path (L := Toy.libraries) Toy.noon
             (Toy.upload "hello.txt" (py "Hello World") None) file
      = Some data
    ∧ download [] (py "hello_20240309_120000.txt")
      (process (L := Toy.libraries) Toy.noon
         (Toy.upload "hello.txt" (py "Hello World") None) Toy.empty_world).2
    = (Ok data,
       (process (L := Toy.libraries) Toy.noon
          (Toy.upload "hello.txt" (py "Hello World") None)
          Toy.empty_world).2).
Proof.
  apply (download_after_success (L := Toy.libraries) Toy.noon
           (Toy.upload "hello.txt" (py "Hello World") None) Toy.empty_world
           (py "Hello World") (py "/download/hello_20240309_120000.txt")
           (py "hello_20240309_120000.txt"));
    [ unfold recognized_format; rewrite !elem_of_cons; left; reflexivity
    | vm_compute; reflexivity ].
Defined.



(** ** The branches of the dispatcher *)

Section SplitJoin.
Import Str.

Lemma split_nosep (sep : N) (s : pystr) : sep ∉ s → split sep s = [s].
Proof.
  induction s as [|c s IH]; [done|]. intros [Hc Hs]%not_elem_of_cons.
  cbn [split]. rewrite (proj2 (N.eqb_neq c sep)) by done. by rewrite IH.
Qed.

Lemma split_app_sep (sep : N) (p rest : pystr) :
  sep ∉ p → split sep (p ++ sep :: rest) = p :: split sep rest.
Proof.
  induction p as [|c p IH]; cbn [split app].
  - intros _. by rewrite N.eqb_refl.
  - intros [Hc Hp]%not_elem_of_cons.
    rewrite (proj2 (N.eqb_neq c sep)) by done. by rewrite IH.
Qed.

(** Splitting what was joined gives the parts back. *)
Lemma split_join (sep : N) (ps : list pystr) :
  ps ≠ [] → Forall (λ p, sep ∉ p) ps → split sep (join [sep] ps) = ps.
Proof.
  intros Hne Hps. induction Hps as [|p ps Hp Hps IH]; [done|].
  destruct ps as [|q qs]; cbn [join].
  - by apply split_nosep.
  - cbn [app]. rewrite split_app_sep by done. f_equal. by apply IH.
Qed.

(** The parts of a split do not hold the separator. *)
Lemma split_parts_nosep (sep : N) (s : pystr) :
  Forall (λ p, sep ∉ p) (split sep s).
Proof.
  induction s as [|c s IH]; cbn [split].
  - constructor; [apply not_elem_of_nil | constructor].
  - destruct (c =? sep)%N eqn:Hc.
    + constructor; [apply not_elem_of_nil | done].
    + destruct (split sep s) as [|l ls]; bool_to_prop.
      * constructor; [|constructor].
        apply not_elem_of_cons. split; [done | apply not_elem_of_nil].
      * apply Forall_cons in IH as [Hl Hls]. constructor; [|done].
        apply not_elem_of_cons. by split.
Qed.

Lemma universal_newlines_id (s : pystr) :
  CR ∉ s → Utf8.universal_newlines s = s.
Proof.
  induction s as [|c s IH]; [done|]. intros [Hc Hs]%not_elem_of_cons.
  cbn [Utf8.universal_newlines].
  rewrite (proj2 (N.eqb_neq c CR)) by done. by rewrite IH.
Qed.
End SplitJoin.

Section Branches.
Context {L : Libraries}.

Lemma extractor_extension_letters (a : pystr) :
  a ∈ EXTRACTOR_EXTENSIONS → Forall (λ d, (0x61 ≤ d ≤ 0x7A)%N) a.
Proof.
  unfold EXTRACTOR_EXTENSIONS. rewrite !elem_of_cons, elem_of_nil.
  intros [->|[->|[->|[->|[->|[]]]]]]; cbv [py fmap list_fmap
    list_ascii_of_string N_of_ascii N_of_digits N.add N.mul Pos.add
    Pos.succ Pos.mul]; repeat constructor; lia.
Qed.

(** The branch taken for a name whose extension is [a] in some letter
    case. *)
Lemma dispatch_extension (stem e a input_path lang : pystr) (w : world) :
  a ∈ EXTRACTOR_EXTENSIONS → case_variant e a →
  dispatch (stem ++ Str.DOT :: e) input_path lang w
  = (if bool_decide (a = py "pdf") then process_pdf input_path lang
     else if bool_decide (a ∈ [py "jpg"; py "jpeg"; py "png"]) then
       data ← read_binary input_path;
       img ← lift (Image_open data);
       extract_ocr (preprocess_image img) lang
     else if bool_decide (a = py "docx") then
       data ← read_binary input_path;
       paragraphs ← lift (docx_paragraphs data);
       mret (Str.join [Str.LF] paragraphs)
     else read_text input_path) w.
Proof.
  intros Ha Hv.
  destruct (lower_case_variant unicode_lower e a
              (extractor_extension_letters a Ha) Hv) as [Hl He].
  unfold dispatch. rewrite rsplit1_app, run_bind by done.
  cbn [getitem lookup list_lookup lift]. cbv zeta. by rewrite Hl.
Qed.
End Branches.

Example PDF_is_pdf : case_variant (py "PDF") (py "pdf").
Proof.
  repeat (apply List.Forall2_cons; [right; by vm_compute|]).
  apply List.Forall2_nil.
Qed.

Example Jpg_is_jpg : case_variant (py "Jpg") (py "jpg").
Proof.
  apply List.Forall2_cons; [right; by vm_compute|].
  repeat (apply List.Forall2_cons; [by left|]). apply List.Forall2_nil.
Qed.

Example docx_is_docx : case_variant (py "docx") (py "docx").
Proof.
  repeat (apply List.Forall2_cons; [by left|]). apply List.Forall2_nil.
Qed.

(** X11. An upload whose extension is pdf in any letter case is handed to
    the PDF resolver. *)
Theorem pdf_extension_any_case {L : Libraries} (stem e input_path lang : pystr)
    (w : world) :
  case_variant e (py "pdf") →
  dispatch (stem ++ Str.DOT :: e) input_path lang w
  = process_pdf input_path lang w.
Proof.
  intros Hv. rewrite (dispatch_extension stem e (py "pdf")); [done| |done].
  unfold EXTRACTOR_EXTENSIONS. apply elem_of_cons. by left.
Qed.

Lemma pdf_extension_any_case_witness :
  dispatch (L := Toy.libraries) (py "Report" ++ Str.DOT :: py "PDF")
    (py "uploads/doc.pdf") (py "eng") toy_pdf_world
  = process_pdf (L := Toy.libraries) (py "uploads/doc.pdf") (py "eng")
      toy_pdf_world.
Proof.
  apply (pdf_extension_any_case (L := Toy.libraries) (py "Report") (py "PDF")
           (py "uploads/doc.pdf") (py "eng") toy_pdf_world).
  exact PDF_is_pdf.
Defined.

(** X12. For an extension jpg, jpeg or png in any letter case the
    extracted text is what the OCR engine reads, in the language of the
    request and with the fixed configuration, on the sharpened grey image
    of the upload; one OCR call is made and no file is changed.  An
    image that cannot be opened, or an engine that fails, makes the
    dispatcher raise. *)
Theorem image_branch {L : Libraries} (stem e a input_path lang : pystr)
    (w : world) (data : bytes) :
  a ∈ [py "jpg"; py "jpeg"; py "png"] → case_variant e a →
  files w !! input_path = Some data →
  dispatch (stem ++ Str.DOT :: e) input_path lang w
  = match Image_open data with
    | Raise err => (Raise err, w)
    | Ok img =>
        (image_to_string
           (Image_filter_SHARPEN (Image_convert_L img)) lang OCR_CONFIG,
         World (files w) (calls w ++ [CallImageToString lang]))
    end.
Proof.
  intros Ha Hv Hdata.
  assert (Ha' : a ∈ EXTRACTOR_EXTENSIONS).
  { unfold EXTRACTOR_EXTENSIONS. revert Ha. rewrite !elem_of_cons.
    intuition. }
  rewrite (dispatch_extension stem e a) by done.
  rewrite bool_decide_eq_false_2.
  2:{ revert Ha. rewrite !elem_of_cons, elem_of_nil.
      by intros [->|[->|[->|[]]]]. }
  rewrite bool_decide_eq_true_2 by done.
  rewrite run_bind. unfold read_binary. rewrite Hdata.
  rewrite run_bind. cbn [lift].
  destruct (Image_open data) as [img|err]; [|done].
  unfold extract_ocr. rewrite run_bind. cbn [log lift].
  by destruct (image_to_string _ _ _).
Qed.

Lemma image_branch_witness :
  dispatch (L := Toy.libraries) (py "photo" ++ Str.DOT :: py "Jpg")
    (py "uploads/photo.Jpg") (py "hin")
    (World {[ py "uploads/photo.Jpg" := py "ink" ]} [])
  = match Image_open (Libraries := Toy.libraries) (py "ink") with
    | Raise err => (Raise err, World {[ py "uploads/photo.Jpg" := py "ink" ]} [])
    | Ok img =>
        (image_to_string (Libraries := Toy.libraries)
           (Image_filter_SHARPEN (Image_convert_L img)) (py "hin") OCR_CONFIG,
         World (files (World {[ py "uploads/photo.Jpg" := py "ink" ]} []))
           (calls (World {[ py "uploads/photo.Jpg" := py "ink" ]} [])
            ++ [CallImageToString (py "hin")]))
    end.
Proof.
  apply (image_branch (L := Toy.libraries) (py "photo") (py "Jpg") (py "jpg")
           (py "uploads/photo.Jpg") (py "hin")
           (World {[ py "uploads/photo.Jpg" := py "ink" ]} []) (py "ink"));
    [ apply elem_of_cons; left; reflexivity
    | exact Jpg_is_jpg
    | vm_compute; reflexivity ].
Defined.

(** X13. For the extension docx in any letter case the extracted text is
    the paragraph texts joined by line feeds, in document order; when no
    paragraph holds a line feed, splitting the text at line feeds gives
    the paragraphs back, empty ones included. *)
Theorem docx_branch {L : Libraries} (stem e input_path lang : pystr)
    (w : world) (data : bytes) (paragraphs : list pystr) :
  case_variant e (py "docx") →
  files w !! input_path = Some data →
  docx_paragraphs data = Ok paragraphs →
  dispatch (stem ++ Str.DOT :: e) input_path lang w
  = (Ok (Str.join [Str.LF] paragraphs), w)
  ∧ (paragraphs ≠ [] → Forall (λ p, Str.LF ∉ p) paragraphs →
     Str.split Str.LF (Str.join [Str.LF] paragraphs) = paragraphs).
Proof.
  intros Hv Hdata Hps. split; [|apply split_join].
  rewrite (dispatch_extension stem e (py "docx")); [| |done].
  2:{ unfold EXTRACTOR_EXTENSIONS. rewrite !elem_of_cons. auto 10. }
  rewrite (bool_decide_eq_false_2 (py "docx" = py "pdf")) by done.
  rewrite bool_decide_eq_false_2.
  2:{ rewrite !elem_of_cons, elem_of_nil. by intros [?|[?|[?|[]]]]. }
  rewrite bool_decide_eq_true_2 by done.
  rewrite run_bind. unfold read_binary. rewrite Hdata.
  rewrite run_bind. cbn [lift]. by rewrite Hps.
Qed.

Lemma docx_branch_witness :
  dispatch (L := Toy.libraries) (py "letter" ++ Str.DOT :: py "docx")
    (py "uploads/letter.docx") (py "eng")
    (World {[ py "uploads/letter.docx" := py "A" ++ [10; 10]%N ++ py "B" ]} [])
  = (Ok (Str.join [Str.LF] [py "A"; []; py "B"]),
     World {[ py "uploads/letter.docx" := py "A" ++ [10; 10]%N ++ py "B" ]} [])
  ∧ ([py "A"; []; py "B"] ≠ [] →
     Forall (λ p, Str.LF ∉ p) [py "A"; []; py "B"] →
     Str.split Str.LF (Str.join [Str.LF] [py "A"; []; py "B"])
     = [py "A"; []; py "B"]).
Proof.
  apply (docx_branch (L := Toy.libraries) (py "letter") (py "docx")
           (py "uploads/letter.docx") (py "eng")
           (World {[ py "uploads/letter.docx"
                     := py "A" ++ [10; 10]%N ++ py "B" ]} [])
           (py "A" ++ [10; 10]%N ++ py "B") [py "A"; []; py "B"]);
    [ exact docx_is_docx | vm_compute; reflexivity | reflexivity ].
Defined.

(** X14. A txt artifact made from a text without carriage returns, when
    uploaded again under a name ending in [.txt], is extracted to that
    same text. *)
Theorem txt_artifact_reupload {L : Libraries} (stem input_path lang : pystr)
    (w : world) (text : pystr) (data : bytes) :
  Utf8.encode text = Some data →
  Str.CR ∉ text →
  files w !! input_path = Some data →
  dispatch (stem ++ py ".txt") input_path lang w = (Ok text, w).
Proof.
  intros Henc Hcr Hdata. change (py ".txt") with (Str.DOT :: py "txt").
  unfold dispatch. rewrite rsplit1_app, run_bind.
  2:{ rewrite list_elem_of_In. vm_compute. intuition discriminate. }
  cbn [getitem lookup list_lookup lift]. cbv zeta.
  change (Str.lower unicode_lower (py "txt")) with (py "txt").
  rewrite (bool_decide_eq_false_2 (py "txt" = py "pdf")) by done.
  rewrite bool_decide_eq_false_2.
  2:{ rewrite !elem_of_cons, elem_of_nil. by intros [?|[?|[?|[]]]]. }
  rewrite (bool_decide_eq_false_2 (py "txt" = py "docx")) by done.
  unfold read_text. rewrite run_bind. unfold read_binary. rewrite Hdata.
  rewrite (decode_encode text data) by done.
  by rewrite universal_newlines_id.
Qed.

Lemma txt_artifact_reupload_witness :
  dispatch (L := Toy.libraries) (py "hello_20240309_120000" ++ py ".txt")
    (py "uploads/hello_20240309_120000.txt") (py "eng")
    (World {[ py "uploads/hello_20240309_120000.txt" := py "Hello World" ]} [])
  = (Ok (py "Hello World"),
     World {[ py "uploads/hello_20240309_120000.txt" := py "Hello World" ]} []).
Proof.
  apply (txt_artifact_reupload (L := Toy.libraries)
           (py "hello_20240309_120000")
           (py "uploads/hello_20240309_120000.txt") (py "eng")
           (World {[ py "uploads/hello_20240309_120000.txt"
                     := py "Hello World" ]} [])
           (py "Hello World") (py "Hello World"));
    [ reflexivity
    | rewrite list_elem_of_In; vm_compute; intuition discriminate
    | vm_compute; reflexivity ].
Defined.

(** ** Failures and calls of the PDF resolver *)

Section PdfFailures.
Context {L : Libraries}.

Lemma run_convert_failure path data n e w :
  files w !! path = Some data →
  pdf_render_page data n = Raise e →
  convert_from_path path n n w
  = (Raise e, World (files w) (calls w ++ [CallConvertFromPath n n])).
Proof.
  intros Hdata Himg. unfold convert_from_path.
  rewrite run_bind. cbn [log]. rewrite run_bind.
  unfold read_binary. cbn [files]. rewrite Hdata.
  replace (S n - n) with 1 by lia. cbn [seq mapM].
  rewrite run_bind. cbn [lift]. by rewrite Himg.
Qed.

Lemma run_extract_ocr_failure img lang e w :
  image_to_string img lang OCR_CONFIG = Raise e →
  extract_ocr img lang w
  = (Raise e, World (files w) (calls w ++ [CallImageToString lang])).
Proof.
  intros He. unfold extract_ocr. rewrite run_bind. cbn [log lift].
  fold OCR_CONFIG. by rewrite He.
Qed.

Lemma run_page_failure {B} path data lang p text e cs (k : pystr → M B) w :
  files w !! path = Some data →
  page_failure data lang p e cs →
  (content ← extract_text p;
   text ←
     (if has_text content
      then mret (text ++ default [] content ++ [Str.LF])
      else
        images ← convert_from_path path (page_number p) (page_number p);
        ocr_images lang images text);
   k text) w
  = (Raise e, World (files w) (calls w ++ cs)).
Proof.
  intros Hdata Hf. rewrite run_bind, run_extract_text.
  destruct Hf as [e Hl|content e Hl Hna Himg|content img e Hl Hna Himg Hocr];
    rewrite Hl; [done| |]; rewrite run_bind;
    (destruct (has_text content) eqn:Hh; [by apply has_text_spec in Hh|]);
    rewrite run_bind.
  - rewrite (run_convert_failure path data _ e) by done.
    cbn [files calls]. by rewrite <- !app_assoc.
  - rewrite (run_convert_one_page path data _ img) by done.
    cbn [ocr_images]. rewrite run_bind.
    rewrite (run_extract_ocr_failure _ _ e) by done.
    cbn [files calls]. by rewrite <- !app_assoc.
Qed.

Lemma run_pdf_pages_loop_failure path data lang done p rest
    (outcomes : list (pystr * list call)) e cs text w :
  files w !! path = Some data →
  Forall2 (λ p o, page_outcome data lang p o.1 o.2) done outcomes →
  page_failure data lang p e cs →
  pdf_pages_loop path lang (done ++ p :: rest) text w
  = (Raise e, World (files w) (calls w ++ concat outcomes.*2 ++ cs)).
Proof.
  intros Hdata Hall Hf. revert text w Hdata.
  induction Hall as [|q [o cq] done outcomes Ho Hall IH]; intros text w Hdata.
  - cbn [app pdf_pages_loop fmap list_fmap concat].
    by rewrite (run_page_failure path data lang p text e cs).
  - cbn [app pdf_pages_loop].
    rewrite (run_page path data lang q text o cq) by done.
    rewrite IH by done. cbn [files calls fmap list_fmap concat fst snd].
    by rewrite <- !app_assoc.
Qed.
End PdfFailures.

(** X15. The first page on which a collaborator raises ends
    [process_pdf]: it raises that exception, the text of the pages before
    is lost, no later page is looked at, and the calls made are those of
    the pages before and of the failing page up to the failure. *)
Theorem process_pdf_first_failure {L : Libraries} (path lang : pystr)
    (w : world) (data : bytes) (layers : list (result (option pystr)))
    (done rest : list page) (p : page)
    (outcomes : list (pystr * list call)) (e : exn) (cs : list call) :
  files w !! path = Some data →
  pdf_text_layers data = Ok layers →
  numbered layers = done ++ p :: rest →
  Forall2 (λ p o, page_outcome data lang p o.1 o.2) done outcomes →
  page_failure data lang p e cs →
  process_pdf path lang w
  = (Raise e, World (files w) (calls w ++ concat outcomes.*2 ++ cs)).
Proof.
  intros Hdata Hlayers Hpages Hall Hf. unfold process_pdf, pdfplumber_pages.
  rewrite !run_bind. unfold read_binary. rewrite Hdata. cbn [lift].
  rewrite Hlayers, run_bind. cbn [lift]. fold (numbered layers).
  unfold mret, M_ret. rewrite Hpages.
  by apply (run_pdf_pages_loop_failure path data).
Qed.

(** ** What is logged *)

Section Logs.
Context {A B : Type} (P : call → Prop).

Lemma logs_ret (a : A) : logs P (mret a : M A).
Proof. intros w. exists []. by rewrite app_nil_r. Qed.

Lemma logs_lift (r : result A) : logs P (lift r).
Proof. intros w. exists []. by rewrite app_nil_r. Qed.

Lemma logs_bind (m : M A) (f : A → M B) :
  logs P m → (∀ a, logs P (f a)) → logs P (m ≫= f).
Proof.
  intros Hm Hf w. rewrite run_bind. destruct (Hm w) as (cs & Hcs & HP).
  destruct (m w) as [[a|e] w']; cbn [snd] in *; [|by exists cs].
  destruct (Hf a w') as (cs' & Hcs' & HP'). exists (cs ++ cs').
  rewrite Hcs', Hcs, <- app_assoc. split; [done | by apply Forall_app].
Qed.
End Logs.

Lemma logs_log (P : call → Prop) (c : call) : P c → logs P (log c).
Proof. intros Hc w. exists [c]. split; [done | by constructor]. Qed.

Lemma logs_read_binary (P : call → Prop) (path : pystr) :
  logs P (read_binary path).
Proof.
  intros w. exists []. unfold read_binary.
  destruct (files w !! path); by rewrite app_nil_r.
Qed.

Lemma logs_write_binary (P : call → Prop) (path : pystr) (data : bytes) :
  logs P (write_binary path data).
Proof.
  intros w. exists []. unfold write_binary.
  destruct (name_too_long path); [by rewrite app_nil_r|].
  destruct (Str.endswith1 _ _); by rewrite app_nil_r.
Qed.

Lemma logs_write_text (P : call → Prop) (path text : pystr) :
  logs P (write_text path text).
Proof.
  intros w. exists []. unfold write_text.
  destruct (name_too_long path); [by rewrite app_nil_r|].
  destruct (Str.endswith1 _ _); [by rewrite app_nil_r|].
  destruct (Utf8.encode _); by rewrite app_nil_r.
Qed.

Lemma logs_mapM {A B} (P : call → Prop) (f : A → M B) (l : list A) :
  (∀ a, logs P (f a)) → logs P (mapM f l).
Proof.
  intros Hf. induction l as [|a l IH]; cbn [mapM].
  - apply logs_ret.
  - apply logs_bind; [done|]. intros b.
    apply logs_bind; [done|]. intros bs. apply logs_ret.
Qed.

Section AppLogs.
Context {L : Libraries}.

Lemma logs_extract_ocr img lang : logs (call_ok lang) (extract_ocr img lang).
Proof.
  unfold extract_ocr. apply logs_bind; [by apply logs_log|].
  intros _. apply logs_lift.
Qed.

Lemma logs_ocr_images lang images text :
  logs (call_ok lang) (ocr_images lang images text).
Proof.
  revert text. induction images as [|img rest IH]; intros text;
    cbn [ocr_images]; [apply logs_ret|].
  apply logs_bind; [apply logs_extract_ocr | done].
Qed.

Lemma logs_convert_from_path path lang n :
  logs (call_ok lang) (convert_from_path path n n).
Proof.
  unfold convert_from_path. apply logs_bind; [by apply logs_log|].
  intros _. apply logs_bind; [apply logs_read_binary|]. intros data.
  apply logs_mapM. intros m. apply logs_lift.
Qed.

Lemma logs_pdf_pages_loop path lang pages text :
  logs (call_ok lang) (pdf_pages_loop path lang pages text).
Proof.
  revert text. induction pages as [|p rest IH]; intros text;
    cbn [pdf_pages_loop]; [apply logs_ret|].
  apply logs_bind.
  { unfold extract_text. apply logs_bind; [by apply logs_log|].
    intros _. apply logs_lift. }
  intros content. apply logs_bind; [|done].
  destruct (has_text content); [apply logs_ret|].
  apply logs_bind; [apply logs_convert_from_path|].
  intros images. apply logs_ocr_images.
Qed.

Lemma logs_dispatch filename input_path lang :
  logs (call_ok lang) (dispatch filename input_path lang).
Proof.
  unfold dispatch. apply logs_bind; [apply logs_lift|]. intros ext. cbv zeta.
  repeat case_bool_decide.
  - unfold process_pdf, pdfplumber_pages.
    apply logs_bind; [|intros pages; apply logs_pdf_pages_loop].
    apply logs_bind; [apply logs_read_binary|]. intros data.
    apply logs_bind; [apply logs_lift|]. intros layers. apply logs_ret.
  - apply logs_bind; [apply logs_read_binary|]. intros data.
    apply logs_bind; [apply logs_lift|]. intros img. apply logs_extract_ocr.
  - apply logs_bind; [apply logs_read_binary|]. intros data.
    apply logs_bind; [apply logs_lift|]. intros ps. apply logs_ret.
  - unfold read_text. apply logs_bind; [apply logs_read_binary|].
    intros data. destruct (Utf8.decode data); [apply logs_ret | apply logs_lift].
Qed.

Lemma logs_save_artifact P out_path fmt text :
  logs P (save_artifact out_path fmt text).
Proof.
  unfold save_artifact. repeat case_bool_decide;
    try apply logs_write_text; try apply logs_ret;
    (apply logs_bind; [apply logs_lift|]; intros data;
     apply logs_write_binary).
Qed.

Lemma logs_try_body now filename input_path fmt lang :
  logs (call_ok lang) (try_body now filename input_path fmt lang).
Proof.
  unfold try_body. apply logs_bind; [apply logs_dispatch|]. intros text.
  destruct (negb _); [apply logs_ret|].
  apply logs_bind; [apply logs_lift|]. intros base. cbv zeta.
  apply logs_bind; [apply logs_save_artifact|]. intros _. apply logs_ret.
Qed.

Lemma calls_finally_cleanup path w : calls (finally_cleanup path w) = calls w.
Proof. unfold finally_cleanup. by destruct (os_path_exists path w). Qed.
End AppLogs.

(** X16. On every path through a request, failures included, the log
    only grows, every rendering asked of pdf2image covers a single page,
    and every OCR call uses the language of the request, [eng+hin] when
    the form names none. *)
Theorem calls_of_a_request {L : Libraries} (now : datetime) (req : request)
    (w : world) :
  ∃ cs, calls (process now req w).2 = calls w ++ cs
        ∧ Forall (call_ok (lang_choice_of req)) cs.
Proof.
  unfold process.
  destruct (request_file req) as [file|];
    [|exists []; by rewrite app_nil_r].
  destruct (negb (Str.truthy (fs_filename file)));
    [exists []; by rewrite app_nil_r|].
  fold (staged_name file) (staging_path file)
       (target_format_of req) (lang_choice_of req).
  destruct (logs_write_binary (call_ok (lang_choice_of req))
              (staging_path file) (fs_stream file) w) as (cs1 & Hcs1 & HP1).
  destruct (write_binary _ _ w) as [[[]|e] w1]; cbn [snd] in *;
    [|by exists cs1].
  destruct (logs_try_body now (staged_name file) (staging_path file)
              (target_format_of req) (lang_choice_of req) w1)
    as (cs2 & Hcs2 & HP2).
  destruct (try_body _ _ _ _ _ w1) as [r w2]; cbn [snd] in *.
  exists (cs1 ++ cs2). rewrite calls_finally_cleanup, Hcs2, Hcs1, <- app_assoc.
  split; [done | by apply Forall_app].
Qed.

(** X17. A PDF upload, its extension in any letter case, that was saved
    to the staging folder and whose pages all give blank text (a document
    without pages, or scans on which OCR reads nothing) is answered 400
    with the message of line 95; the calls were made, no artifact is
    written and the staged upload is gone. *)
Theorem blank_pdf_rejected {L : Libraries} (now : datetime) (req : request)
    (w w1 : world) (file : FileStorage) (stem e : pystr)
    (layers : list (result (option pystr)))
    (outcomes : list (pystr * list call)) :
  request_file req = Some file → fs_filename file ≠ [] →
  write_binary (staging_path file) (fs_stream file) w = (Ok tt, w1) →
  staged_name file = stem ++ Str.DOT :: e →
  case_variant e (py "pdf") →
  pdf_text_layers (fs_stream file) = Ok layers →
  Forall2 (λ p o, page_outcome (fs_stream file) (lang_choice_of req) p o.1 o.2)
          (numbered layers) outcomes →
  blank (concat outcomes.*1) →
  process now req w
  = (Json400 NO_TEXT,
     World (delete (staging_path file) (files w))
           (calls w ++ concat outcomes.*2)).
Proof.
  intros Hfile Hname Hsave Hstaged Hv Hlayers Hall Hblank.
  assert (He : e ≠ []) by (intros ->; inversion Hv).
  pose proof (write_binary_Ok _ _ _ _ Hsave) as Hw1.
  assert (Hd : dispatch (staged_name file) (staging_path file)
                 (lang_choice_of req) w1
               = (Ok (concat outcomes.*1),
                  World (files w1) (calls w1 ++ concat outcomes.*2))).
  { rewrite Hstaged, (dispatch_extension stem e (py "pdf"));
      [| unfold EXTRACTOR_EXTENSIONS; apply elem_of_cons; by left | done].
    rewrite bool_decide_eq_true_2 by done.
    unfold process_pdf, pdfplumber_pages.
    rewrite !run_bind. unfold read_binary. rewrite Hw1 at 1. cbn [files].
    rewrite lookup_insert_eq. cbn [lift].
    rewrite Hlayers, run_bind. cbn [lift]. fold (numbered layers).
    unfold mret, M_ret.
    rewrite (run_pdf_pages_loop (staging_path file) (fs_stream file) _ _
               outcomes); [done | rewrite Hw1; apply lookup_insert_eq | done]. }
  rewrite (process_extracted now req w w1 _ file _ Hfile Hname Hsave Hd).
  rewrite (proj2 (strip_blank _) Hblank). f_equal.
  rewrite Hw1. cbn [files calls].
  by apply (finally_cleanup_staged _ (fs_stream file)).
Qed.

(** ** More on the CSV lines *)

Section CsvMore.
Import Str.

Lemma count_lines_from_pos seen s :
  seen = true ∨ Exists (λ c, isspace c = false) s →
  1 ≤ count_lines_from seen s.
Proof.
  revert seen. induction s as [|c r IH]; intros seen Hs;
    cbn [count_lines_from].
  - destruct Hs as [->|Hs%Exists_nil]; [lia | done].
  - destruct (c =? LF)%N eqn:Hc; bool_to_prop.
    + destruct seen; [lia|]. destruct Hs as [[=]|Hs].
      apply Exists_cons in Hs as [Hs|Hs]; [by subst c|].
      specialize (IH false (or_intror Hs)). lia.
    + apply IH. destruct Hs as [->|Hs]; [by left|].
      apply Exists_cons in Hs as [Hs|Hs]; [left|by right].
      rewrite Hs. by destruct seen.
Qed.

Lemma filter_filter_bool {A} (f : A → bool) (l : list A) :
  List.filter f (List.filter f l) = List.filter f l.
Proof.
  induction l as [|x l IH]; [done|]. cbn [List.filter].
  destruct (f x) eqn:Hx; [|done]. cbn [List.filter]. by rewrite Hx, IH.
Qed.

Lemma Forall_filter_keep {A} (P : A → Prop) (f : A → bool) (l : list A) :
  Forall P l → Forall P (List.filter f l).
Proof.
  induction 1 as [|x l Hx Hl IH]; [done|]. cbn [List.filter].
  destruct (f x); [by constructor | done].
Qed.

Lemma csv_lines_no_LF text : Forall (λ l, LF ∉ l) (csv_lines text).
Proof. apply Forall_filter_keep, split_parts_nosep. Qed.
End CsvMore.

(** X18. A text that passed the test of line 94 gives a CSV frame with at
    least one data row: the CSV artifact is never a bare header. *)
Theorem csv_frame_has_a_row (text : pystr) :
  Exists (λ c, Str.isspace c = false) text →
  1 ≤ length (df_rows (csv_frame text)).
Proof.
  intros Ht. cbn [csv_frame DataFrame_of_list df_rows].
  rewrite length_fmap, length_csv_lines. apply count_lines_from_pos.
  by right.
Qed.

Lemma csv_frame_has_a_row_witness :
  1 ≤ length (df_rows (csv_frame ([10; 32]%N ++ py "x" ++ [10%N]))).
Proof.
  apply (csv_frame_has_a_row ([10; 32]%N ++ py "x" ++ [10%N])).
  apply Exists_cons_tl, Exists_cons_tl, Exists_cons_hd. reflexivity.
Defined.

(** X19. The lines kept for the CSV hold no line feed and are not blank,
    and keeping lines is idempotent: joined again by line feeds and
    filtered again, they are the same lines. *)
Theorem csv_lines_idempotent (text : pystr) :
  Forall (λ l, (Str.LF ∉ l) ∧ ¬ blank l) (csv_lines text)
  ∧ csv_lines (Str.join [Str.LF] (csv_lines text)) = csv_lines text.
Proof.
  assert (Hnb : Forall (λ l, ¬ blank l) (csv_lines text)).
  { apply Forall_forall. intros l [_ Hl]%elem_of_csv_lines Hb.
    apply strip_not_blank in Hl. apply strip_blank in Hb. congruence. }
  split.
  { apply Forall_and. split; [apply csv_lines_no_LF | done]. }
  destruct (csv_lines text) as [|l ls] eqn:Hls; [done|].
  unfold csv_lines at 1.
  rewrite split_join; [| done | rewrite <- Hls; apply csv_lines_no_LF].
  rewrite <- Hls. unfold csv_lines. apply filter_filter_bool.
Qed.

Lemma process_pdf_first_failure_witness :
  process_pdf (L := Strict.libraries) (py "uploads/doc.pdf") (py "eng")
    Strict.faulty_pdf_world
  = (Raise (LibraryError (py "tesseract: empty page")),
     World (files Strict.faulty_pdf_world)
       (calls Strict.faulty_pdf_world
        ++ concat [(py "This page has an embedded text layer." ++ [Str.LF],
                    [CallExtractText 1])].*2
        ++ [CallExtractText 2; CallConvertFromPath 2 2;
            CallImageToString (py "eng")])).
Proof.
  apply (process_pdf_first_failure (L := Strict.libraries)
           (py "uploads/doc.pdf") (py "eng") Strict.faulty_pdf_world
           Strict.faulty_pdf
           (Toy.layer <$> Str.split Toy.FF Strict.faulty_pdf)
           [{| page_number := 1;
               page_layer :=
                 Toy.layer (py "This page has an embedded text layer.") |}]
           [{| page_number := 3; page_layer := Toy.layer (py "!more") |}]
           {| page_number := 2; page_layer := Toy.layer (py "!") |}
           [(py "This page has an embedded text layer." ++ [Str.LF],
             [CallExtractText 1])]).
  - vm_compute. reflexivity.
  - reflexivity.
  - vm_compute. reflexivity.
  - apply List.Forall2_cons; [|apply List.Forall2_nil]. cbn [fst snd].
    apply (outcome_embedded (L := Strict.libraries) Strict.faulty_pdf
             (py "eng")
             {| page_number := 1;
                page_layer :=
                  Toy.layer (py "This page has an embedded text layer.") |}
             (py "This page has an embedded text layer."));
      [reflexivity | vm_compute; lia].
  - apply (failure_ocr (L := Strict.libraries) Strict.faulty_pdf (py "eng")
             {| page_number := 2; page_layer := Toy.layer (py "!") |}
             None [] (LibraryError (py "tesseract: empty page")));
      [ reflexivity | intros (c & Hc & _); discriminate Hc
      | reflexivity | reflexivity ].
Defined.

Lemma blank_pdf_rejected_witness :
  process (L := Toy.libraries) Toy.noon
    (Toy.upload "blank.PDF" (py "!") None) Toy.empty_world
  = (Json400 NO_TEXT,
     World (delete (staging_path (L := Toy.libraries)
                      (Toy.file_of "blank.PDF" (py "!")))
                   (files Toy.empty_world))
       (calls Toy.empty_world
        ++ concat [([Str.LF],
                    [CallExtractText 1; CallConvertFromPath 1 1;
                     CallImageToString (py "eng+hin")])].*2)).
Proof.
  apply (blank_pdf_rejected (L := Toy.libraries) Toy.noon
           (Toy.upload "blank.PDF" (py "!") None) Toy.empty_world
           (toy_staged "blank.PDF" (py "!") Toy.empty_world)
           (Toy.file_of "blank.PDF" (py "!")) (py "blank") (py "PDF")
           [Toy.layer (py "!")]
           [([Str.LF],
             [CallExtractText 1; CallConvertFromPath 1 1;
              CallImageToString (py "eng+hin")])]).
  - reflexivity.
  - discriminate.
  - vm_compute. reflexivity.
  - vm_compute. reflexivity.
  - exact PDF_is_pdf.
  - reflexivity.
  - apply List.Forall2_cons; [|apply List.Forall2_nil]. cbn [fst snd].
    apply (outcome_ocr (L := Toy.libraries) (py "!") (py "eng+hin")
             {| page_number := 1; page_layer := Toy.layer (py "!") |}
             None [] []);
      [ reflexivity | intros (c & Hc & _); discriminate Hc
      | reflexivity | reflexivity ].
  - repeat constructor.
Defined.

(** ** The test of line 47 *)

Section Padding.
Import Str.
Variable p : N → bool.

Lemma lstrip_by_app_l ws s :
  Forall (λ c, p c = true) ws → lstrip_by p (ws ++ s) = lstrip_by p s.
Proof.
  induction 1 as [|c ws Hc Hws IH]; [done|]. cbn [app lstrip_by].
  by rewrite Hc.
Qed.

Lemma lstrip_by_app_r s ws :
  lstrip_by p s ≠ [] → lstrip_by p (s ++ ws) = lstrip_by p s ++ ws.
Proof.
  induction s as [|c s IH]; [done|]. cbn [app lstrip_by].
  destruct (p c); [done | by intros _].
Qed.

Lemma rstrip_by_app s ws :
  Forall (λ c, p c = true) ws → rstrip_by p (s ++ ws) = rstrip_by p s.
Proof.
  intros Hws. unfold rstrip_by.
  by rewrite reverse_app, lstrip_by_app_l by by apply Forall_reverse.
Qed.

(** Characters of the stripped set around a string do not show after
    stripping. *)
Lemma strip_by_pad ws s ws' :
  Forall (λ c, p c = true) ws → Forall (λ c, p c = true) ws' →
  strip_by p (ws ++ s ++ ws') = strip_by p s.
Proof.
  intros Hws Hws'. unfold strip_by. rewrite lstrip_by_app_l by done.
  destruct (lstrip_by p s) as [|c t] eqn:Hs.
  - apply lstrip_by_nil in Hs.
    by rewrite (proj2 (lstrip_by_nil p (s ++ ws'))) by by apply Forall_app.
  - rewrite lstrip_by_app_r, Hs by by rewrite Hs. by apply rstrip_by_app.
Qed.
End Padding.

(** X20. Whether a page counts as having text depends only on its text
    layer trimmed of whitespace: blank padding before or after the text
    changes nothing, and a layer of whitespace alone counts as no text
    however long it is. *)
Theorem has_text_ignores_padding (ws c ws' : pystr) :
  blank ws → blank ws' →
  has_text (Some (ws ++ c ++ ws')) = has_text (Some c)
  ∧ has_text (Some ws) = false.
Proof.
  intros Hws Hws'.
  assert (Hh : ∀ x, has_text (Some x)
                    = bool_decide (20 < length (Str.strip x))).
  { intros [|d x]; [done|]. cbn [has_text Str.truthy]. done. }
  rewrite !Hh. unfold Str.strip. rewrite strip_by_pad by done.
  split; [done|]. by rewrite (proj2 (strip_by_nil _ ws) Hws).
Qed.

Lemma has_text_ignores_padding_witness :
  has_text (Some ([32; 9]%N ++ py "twenty one characters" ++ [10; 12]%N))
  = has_text (Some (py "twenty one characters"))
  ∧ has_text (Some [32; 9]%N) = false.
Proof.
  apply (has_text_ignores_padding [32; 9]%N (py "twenty one characters")
           [10; 12]%N); repeat constructor.
Defined.
